(** * Chess Artist: the move classifier, the complexity number, the score
    normaliser and the orchestration of [chess-artist.py]

    A shallow embedding of the decision logic of [chess-artist.py] (Python 2.7).

    - Python [int] is [Z]; Python [float] is IEEE binary64, here the kernel's
      primitive [float] with its own comparisons ([<?], [<=?]), so a threshold
      such as [-0.15] is the same double the interpreter compares with.
    - Python [str] is [string]; [None] is [option]'s [None].
    - An uncaught exception ends the run: a fallible function returns
      [result]; a method of the [Analyze] object is a function of the
      object's state that returns a [result] and the state it reached.
    - The engine process and python-chess are what they answer: the fields
      of [Engine.engine], and, for the methods that build a FEN from the
      text of an EPD line, the strings [chess.Board] takes ([parses]). Each
      request to the engine is recorded in the state, and so is every write
      to the output file. What the script prints on the console is left
      out. *)

From Stdlib Require Import ZArith List String Ascii Bool Lia.
From Stdlib Require Import Floats DecimalString.
Import ListNotations.

Set Warnings "-inexact-float".

Local Open Scope string_scope.
Local Open Scope Z_scope.

(** ** Exceptions and results *)

Inductive exn : Type :=
| NameError          (* a local variable read before any assignment *)
| TypeError
| ValueError
| IndexError
| KeyError
| AssertionError
| ZeroDivisionError.

Inductive result (A : Type) : Type :=
| Ok (a : A)
| Raise (e : exn).

Arguments Ok {A} a.
Arguments Raise {A} e.

Definition bind {A B : Type} (r : result A) (k : A -> result B) : result B :=
  match r with
  | Ok a => k a
  | Raise e => Raise e
  end.

Notation "'do' x <- r ; k" := (bind r (fun x => k))
  (at level 10, x name, r at level 100, k at level 200).

Notation "'do' ' p <- r ; k" := (bind r (fun p => k))
  (at level 10, p pattern, r at level 100, k at level 200).

(** ** Module-level constants *)

Definition BOOK_MOVE_LIMIT : Z := 30.
Definition MAX_SCORE : Z := 32000.
Definition TEST_SEARCH_SCORE : Z := 100000.
Definition TEST_SEARCH_DEPTH : Z := 1000.
Definition WIN_SCORE : float := 6.0%float.

(** ** Python's built-in string and list operations used by the script *)

Module Py.

(** The whitespace of [str.strip()] and [str.split()]: space, tab, newline,
    vertical tab, form feed, carriage return. *)
Definition is_space (c : ascii) : bool :=
  let n := nat_of_ascii c in
  (n =? 32)%nat || ((9 <=? n)%nat && (n <=? 13)%nat).

Fixpoint lstrip (s : string) : string :=
  match s with
  | String c s' => if is_space c then lstrip s' else s
  | EmptyString => EmptyString
  end.

Fixpoint rstrip (s : string) : string :=
  match s with
  | String c s' =>
      match rstrip s' with
      | EmptyString => if is_space c then EmptyString else String c EmptyString
      | r => String c r
      end
  | EmptyString => EmptyString
  end.

(** [s.strip()] *)
Definition strip (s : string) : string := rstrip (lstrip s).

Definition snoc (word : string) (c : ascii) : string :=
  word ++ String c EmptyString.

Definition flush (word : string) (rest : list string) : list string :=
  match word with
  | EmptyString => rest
  | _ => word :: rest
  end.

Fixpoint split_from (word s : string) : list string :=
  match s with
  | String c s' =>
      if is_space c then flush word (split_from EmptyString s')
      else split_from (snoc word c) s'
  | EmptyString => flush word []
  end.

(** [s.split()]: the maximal runs of non-whitespace characters. *)
Definition split (s : string) : list string := split_from EmptyString s.

Fixpoint split_at_from (sep : ascii) (word s : string) : list string :=
  match s with
  | String c s' =>
      if Ascii.eqb c sep then word :: split_at_from sep EmptyString s'
      else split_at_from sep (snoc word c) s'
  | EmptyString => [word]
  end.

(** [s.split(sep)] for a one-character separator: never the empty list. *)
Definition split_at (sep : ascii) (s : string) : list string :=
  split_at_from sep EmptyString s.

(** [sep.join(l)] *)
Definition join (sep : string) (l : list string) : string := String.concat sep l.

(** [sub in s] on strings: [sub] occurs in [s] as a substring. *)
Fixpoint contains (sub s : string) : bool :=
  String.prefix sub s ||
  match s with
  | String _ s' => contains sub s'
  | EmptyString => false
  end.

(** [x in l] on a list of strings. *)
Definition mem (x : string) (l : list string) : bool :=
  existsb (String.eqb x) l.

(** [l.index(x)]: the first position of [x], [ValueError] when it is absent. *)
Fixpoint index (x : string) (l : list string) : result nat :=
  match l with
  | y :: l' => if String.eqb y x then Ok O else do i <- index x l'; Ok (S i)
  | [] => Raise ValueError
  end.

(** [l[i]]: [IndexError] out of range (the script only uses indices [>= 0]). *)
Definition item {A : Type} (l : list A) (i : nat) : result A :=
  match nth_error l i with
  | Some a => Ok a
  | None => Raise IndexError
  end.

(** [s[0:-k]]: all but the last [k] characters, the empty string when [s] has
    at most [k] characters. *)
Definition drop_last (k : nat) (s : string) : string :=
  substring 0 (String.length s - k) s.

(** The newline and the double quote, as strings. *)
Definition LF : string := String "010" EmptyString.
Definition DQ : string := String "034" EmptyString.

(** [s.endswith(suffix)] *)
Definition endswith (suffix s : string) : bool :=
  String.eqb (substring (String.length s - String.length suffix) (String.length suffix) s) suffix
  && (String.length suffix <=? String.length s)%nat.

(** ['%d' % n] *)
Definition format_d (n : Z) : string := NilZero.string_of_int (Z.to_int n).

Fixpoint zero_pad (width : nat) (s : string) : string :=
  match width with
  | O => s
  | S w => if (String.length s <=? w)%nat then zero_pad w (String "0" s) else s
  end.

(** [|x| * 10^places] rounded to the nearest integer, ties to even, from the
    exact value [m * 2^e] of a finite double. *)
Definition round_scaled (places : nat) (m : positive) (e : Z) : Z :=
  let num := Zpos m * 10 ^ Z.of_nat places in
  if 0 <=? e then num * 2 ^ e
  else
    let den := 2 ^ (- e) in
    let q := num / den in
    let r := num mod den in
    if 2 * r <? den then q
    else if den <? 2 * r then q + 1
    else if Z.even q then q else q + 1.

Definition fixed_digits (places : nat) (n : Z) : string :=
  let unit := 10 ^ Z.of_nat places in
  match places with
  | O => format_d n
  | _ => format_d (n / unit) ++ "." ++ zero_pad places (format_d (n mod unit))
  end.

(** ['%0.<places>f' % x], and ['%+0.<places>f' % x] when [plus] is set. *)
Definition format_f (plus : bool) (places : nat) (x : float) : string :=
  let sign (neg : bool) := if neg then "-" else if plus then "+" else "" in
  match Prim2SF x with
  | S754_zero neg => sign neg ++ fixed_digits places 0
  | S754_finite neg m e => sign neg ++ fixed_digits places (round_scaled places m e)
  | S754_infinity neg => sign neg ++ "inf"
  | S754_nan => sign false ++ "nan"
  end.

(** [float(n)]: the double nearest to the integer [n], ties to even. *)
Definition float_of_int (n : Z) : float := SF2Prim (binary_normalize 53 1024 n 0 false).

(** [a / n] for a float [a] and an int [n]: a zero divisor raises, any other
    is converted to a float first. *)
Definition float_div_int (a : float) (n : Z) : result float :=
  if n =? 0 then Raise ZeroDivisionError else Ok (PrimFloat.div a (float_of_int n)).

End Py.

(** ** Float comparisons, written the way the source writes them *)

Module PyFloat.

Definition lt (a b : float) : bool := PrimFloat.ltb a b.
Definition le (a b : float) : bool := PrimFloat.leb a b.
Definition gt (a b : float) : bool := PrimFloat.ltb b a.
Definition ge (a b : float) : bool := PrimFloat.leb b a.

(** [-1 * x]: the int [-1] is converted to the double [-1.0]. *)
Definition neg1_times (x : float) : float := PrimFloat.mul (-1)%float x.

End PyFloat.

(** ** ScoreNormalizer *)

Definition MateDistanceToValue (d : Z) : Z :=
  let value := 0 in
  if d <? 0 then -2 * d - MAX_SCORE
  else if d >? 0 then MAX_SCORE - 2 * d + 1
  else value.

(** ** MoveClassifier *)

Module Nag.

Import PyFloat.
Local Open Scope float_scope.

(** [side] is python-chess's colour: [True] is White, [False] is Black. *)
Definition GetGoodNag (side : bool) (posScore engScore : float)
           (complexityNumber moveChanges : Z) : string :=
  let posScore := if negb side then neg1_times posScore else posScore in
  let engScore := if negb side then neg1_times engScore else engScore in
  let moveNag := "$0"%string in
  let moveNag :=
    if gt posScore engScore && (moveChanges >=? 4)%Z &&
       (complexityNumber >=? 45)%Z &&
       ge posScore 0.75 && le posScore 3.0
    then "$3"%string
    else if (moveChanges >=? 3)%Z && (complexityNumber >=? 30)%Z &&
            ge posScore (-0.15) && le posScore 3.0
    then "$1"%string
    else if (moveChanges >=? 2)%Z && (complexityNumber >=? 20)%Z &&
            ge posScore (-0.15) && le posScore 3.0
    then "$5"%string
    else moveNag in
  moveNag.

Definition GetBadNag (side : bool) (posScore engScore : float) : string :=
  let posScore := if negb side then neg1_times posScore else posScore in
  let engScore := if negb side then neg1_times engScore else engScore in
  let moveNag := "$0"%string in
  let moveNag :=
    if lt posScore (-1.50) && ge engScore (-1.50) then "$4"%string
    else if lt posScore (-0.75) && ge engScore (-0.75) then "$2"%string
    else if lt posScore (-0.15) && ge engScore (-0.15) then "$6"%string
    else if gt engScore 1.50 && le posScore 1.50 then "$2"%string
    else moveNag in
  let moveNag := if ge posScore engScore then "$5"%string else moveNag in
  moveNag.

(** *** The classifier as the specification words it *)

Inductive glyph : Type :=
| NoGlyph | Good | Mistake | VeryGood | Blunder | Interesting | Dubious.

(** The numeric annotation glyph of PGN: [$1] is [!], [$2] is [?], [$3] is
    [!!], [$4] is [??], [$5] is [!?], [$6] is [?!]. *)
Definition nag_token (g : glyph) : string :=
  match g with
  | NoGlyph => "$0"
  | Good => "$1"
  | Mistake => "$2"
  | VeryGood => "$3"
  | Blunder => "$4"
  | Interesting => "$5"
  | Dubious => "$6"
  end%string.

(** A White point-of-view score seen from the side to move. *)
Definition side_pov (side : bool) (x : float) : float :=
  if side then x else neg1_times x.

(** [lo <= x] and [x <= hi]. *)
Definition within (lo x hi : float) : bool := (lo <=? x) && (x <=? hi).

(** [p < t <= e]: the played move is below the threshold, the engine's is not. *)
Definition drops_below (t p e : float) : bool := (p <? t) && (t <=? e).

Definition BadNag_ladder (p e : float) : glyph :=
  if drops_below (-1.50) p e then Blunder
  else if drops_below (-0.75) p e then Mistake
  else if drops_below (-0.15) p e then Dubious
  else if (1.50 <? e) && (p <=? 1.50) then Mistake
  else NoGlyph.

Definition BadNag (p e : float) : glyph :=
  if e <=? p then Interesting else BadNag_ladder p e.

Definition GoodNag (p e : float) (complexityNumber moveChanges : Z) : glyph :=
  if (e <? p) && (4 <=? moveChanges)%Z && (45 <=? complexityNumber)%Z &&
     within 0.75 p 3.0 then VeryGood
  else if (3 <=? moveChanges)%Z && (30 <=? complexityNumber)%Z &&
          within (-0.15) p 3.0 then Good
  else if (2 <=? moveChanges)%Z && (20 <=? complexityNumber)%Z &&
          within (-0.15) p 3.0 then Interesting
  else NoGlyph.

End Nag.

(** ** ComplexityAnalyzer *)

Module Complexity.

(** One element [[searchDepth, pvMove]] of [savedMove]. *)
Definition sample : Type := (Z * string)%type.

(** The local variables of [GetComplexityNumber]. [lastMove] and [lastDepth]
    have no binding until the end of the first pass through the loop body. *)
Record locals : Type := Locals {
  complexityNumber : Z;
  moveChanges : Z;
  lastDepth : option Z;
  lastMove : option string
}.

(** Reading a local variable: an unbound one raises (the [UnboundLocalError]
    subclass of) [NameError]. *)
Definition read {A : Type} (v : option A) : result A :=
  match v with
  | Some a => Ok a
  | None => Raise NameError
  end.

(** The test [n[1] != lastMove and depth != lastDepth]: [and] reads
    [lastDepth] only when the left operand is true. *)
Definition pv_changed (st : locals) (n : sample) : result bool :=
  do lm <- read (lastMove st);
  if negb (String.eqb (snd n) lm)
  then do ld <- read (lastDepth st); Ok (negb (fst n =? ld))
  else Ok false.

Definition loop_body (st : locals) (n : sample) : result locals :=
  let depth := fst n in
  do st <- (if depth >=? 10
            then do changed <- pv_changed st n;
                 if changed
                 then Ok (Locals (complexityNumber st + fst n) (moveChanges st + 1)
                                 (lastDepth st) (lastMove st))
                 else Ok st
            else Ok st);
  Ok (Locals (complexityNumber st) (moveChanges st) (Some depth) (Some (snd n))).

Fixpoint scan (st : locals) (savedMove : list sample) : result locals :=
  match savedMove with
  | n :: rest => do st <- loop_body st n; scan st rest
  | [] => Ok st
  end.

Definition GetComplexityNumber (savedMove : list sample) : result (Z * Z) :=
  do st <- scan (Locals 0 0 None None) savedMove;
  Ok (complexityNumber st, moveChanges st).

(** *** The specification's reading: samples below depth 10 are discarded
    first, and the scan runs over what is left *)

Definition discard_shallow (t : list sample) : list sample :=
  filter (fun n => 10 <=? fst n) t.

(** Each sample with the sample just before it. *)
Fixpoint consecutive (t : list sample) : list (sample * sample) :=
  match t with
  | prev :: (cur :: _) as rest => (prev, cur) :: consecutive rest
  | _ => []
  end.

(** The PV move differs and the depth differs from the previous sample. *)
Definition differs (pc : sample * sample) : bool :=
  let (prev, cur) := pc in
  negb (String.eqb (snd cur) (snd prev)) && negb (fst cur =? fst prev).

Definition sum_depths (l : list (sample * sample)) : Z :=
  fold_right (fun pc acc => fst (snd pc) + acc) 0 l.

(** Sum of the depths, and number, of the samples of [pairs] that changed. *)
Definition tally (pairs : list (sample * sample)) : Z * Z :=
  let hits := filter differs pairs in
  (sum_depths hits, Z.of_nat (List.length hits)).

(** Complexity accounting over a trace of depth [>= 10] samples only. *)
Definition complexity_of_deep_samples (t : list sample) : Z * Z :=
  tally (consecutive (discard_shallow t)).

(** What the loop does: every sample is a previous sample; a sample is
    examined only when its own depth is at least 10. *)
Definition deep_current (pc : sample * sample) : bool := 10 <=? fst (snd pc).

(** Does the pair add to the counters: the second sample is deep enough and
    differs from the first in move and in depth. *)
Definition hit (pc : sample * sample) : bool := deep_current pc && differs pc.

Definition complexity_of_trace (t : list sample) : Z * Z :=
  tally (filter deep_current (consecutive t)).

(** The trace is empty or starts with a sample of depth below 10. *)
Definition starts_shallow (t : list sample) : bool :=
  match t with
  | n :: _ => fst n <? 10
  | [] => true
  end.

End Complexity.

(** ** EngineSession: the handshake *)

Module Handshake.

Import Py.

(** The loop over [iter(p.stdout.readline, '')] of [GetEngineIdName]: [stdout]
    is the lines the engine prints after [uci]; an empty read is end of
    stream. *)
Fixpoint read_id_name (engineIdName : string) (stdout : list string) : string :=
  match stdout with
  | eline :: rest =>
      if String.eqb eline "" then engineIdName
      else
        let line := strip eline in
        let engineIdName :=
          if contains "id name " line
          then join " " (skipn 2 (split line))
          else engineIdName in
        if contains "uciok" line then engineIdName
        else read_id_name engineIdName rest
  | [] => engineIdName
  end.

Definition GetEngineIdName (eng : string) (stdout : list string) : string :=
  let engineIdName := drop_last 4 eng in
  read_id_name engineIdName stdout.

(** The lines the handshake loop reads: up to the first one with [uciok]. *)
Fixpoint lines_read (stdout : list string) : list string :=
  match stdout with
  | eline :: rest =>
      if String.eqb eline "" then []
      else if contains "uciok" (strip eline) then [eline]
      else eline :: lines_read rest
  | [] => []
  end.

(** *** The specification's reading of the fallback: the filename minus its
    extension *)

Fixpoint has_char (c : ascii) (s : string) : bool :=
  match s with
  | String c' rest => Ascii.eqb c c' || has_char c rest
  | EmptyString => false
  end.

(** The path up to the last dot of its last component; the whole path when
    that component has no dot. *)
Fixpoint minus_extension (path : string) : string :=
  match path with
  | String c rest =>
      if Ascii.eqb c "." && negb (has_char "." rest) && negb (has_char "/" rest)
      then EmptyString
      else String c (minus_extension rest)
  | EmptyString => EmptyString
  end.

End Handshake.

(** ** The engine and the board library, as the script sees them *)

Module Engine.

Import Py.

(** The last [score cp <n>] or [score mate <n>] of a search. *)
Inductive uci_score : Type :=
| ScoreCp (n : Z)
| ScoreMate (n : Z).

(** What the reply to one [go movetime] leaves in the parsing loops: the last
    score and the last depth seen before [bestmove] (if any), the
    [info depth <d> ... pv <move>] samples not marked upperbound or
    lowerbound, and the move after [bestmove]. *)
Record search_reply : Type := SearchReply {
  last_score : option uci_score;
  last_depth : option Z;
  pv_samples : list Complexity.sample;
  bestmove : string
}.

(** The reply to the book probe: whether an [info depth] line came before
    [bestmove], and the move. *)
Record book_reply : Type := BookReply {
  info_depth_seen : bool;
  book_bestmove : string
}.

(** One engine process per request; the replies are those of the engine at
    hand. [UciToSanMove] and [is_game_over] ([is_checkmate() or
    is_stalemate()] of the position) are python-chess's. *)
Record engine : Type := EngineOf {
  uci_stdout : list string;
  go_book : string -> book_reply;
  eval_total : string -> option float;
  go_search : string -> search_reply;
  UciToSanMove : string -> string -> string;
  is_game_over : string -> bool
}.

(** The requests the orchestrator issues, in the order it issues them. *)
Inductive request : Type :=
| BookProbe (fen : string)
| StaticEval (fen : string)
| SearchBeforeMove (fen : string)
| SearchAfterMove (fen : string)
| EpdSearch (fen : string).

(** Is the request an evaluation of a position (anything but a book probe)? *)
Definition is_evaluation (r : request) : bool :=
  match r with
  | BookProbe _ => false
  | _ => true
  end.

(** The value [scoreCp] holds when the parsing loop ends. *)
Definition parsed_score (r : search_reply) : Z :=
  match last_score r with
  | Some (ScoreCp n) => n
  | Some (ScoreMate n) => MateDistanceToValue n
  | None => TEST_SEARCH_SCORE
  end.

(** [assert cond] *)
Definition assert (cond : bool) : result unit :=
  if cond then Ok tt else Raise AssertionError.

End Engine.

(** ** The [Analyze] object *)

Module Analyze.

Import Py Engine.

(** The fields set once by [__init__]. *)
Record config : Type := Config {
  infn : string;
  outfn : string;
  eng : string;
  evalOpt : string;
  moveTimeOpt : Z;
  engHashOpt : Z;
  engThreadsOpt : Z;
  moveStartOpt : Z;
  jobOpt : string;
  engIdName : string
}.

(** What changes during a run: the book option (switched off for an engine
    that is not Brainfish), the writer's counter, the output file (every
    write appends) and the requests sent to the engine so far. *)
Record state : Type := State {
  bookOpt : string;
  writeCnt : Z;
  outfile : string;
  requests : list request
}.

(** A method of the object: it ends with a value or an exception, and
    leaves the state it reached either way. *)
Definition M (A : Type) : Type := state -> result A * state.

Definition ret {A : Type} (a : A) : M A := fun st => (Ok a, st).

Definition raise {A : Type} (x : exn) : M A := fun st => (Raise x, st).

Definition lift {A : Type} (r : result A) : M A := fun st => (r, st).

Definition mbind {A B : Type} (m : M A) (k : A -> M B) : M B :=
  fun st =>
    match m st with
    | (Ok a, st') => k a st'
    | (Raise x, st') => (Raise x, st')
    end.

Definition get : M state := fun st => (Ok st, st).

Definition modify (f : state -> state) : M unit := fun st => (Ok tt, f st).

Notation "x <- m ;; k" := (mbind m (fun x => k))
  (at level 61, m at next level, right associativity).

Notation "' p <- m ;; k" := (mbind m (fun p => k))
  (at level 61, p pattern, m at next level, right associativity).

Notation "m ;; k" := (mbind m (fun _ => k))
  (at level 61, right associativity).

(** [f.write(text)] on the output file opened for appending. *)
Definition fwrite (text : string) : M unit :=
  modify (fun st => State (bookOpt st) (writeCnt st) (outfile st ++ text) (requests st)).

Definition set_writeCnt (n : Z) : M unit :=
  modify (fun st => State (bookOpt st) n (outfile st) (requests st)).

Definition set_bookOpt (b : string) : M unit :=
  modify (fun st => State b (writeCnt st) (outfile st) (requests st)).

(** A request goes to a fresh engine process. *)
Definition send (r : request) : M unit :=
  modify (fun st => State (bookOpt st) (writeCnt st) (outfile st) (requests st ++ [r])).

(** [self.writeCnt += 1] *)
Definition bump : M unit :=
  st <- get ;; set_writeCnt (writeCnt st + 1).

(** [if self.writeCnt >= limit: self.writeCnt = 0; f.write('\n')] *)
Definition wrap (limit : Z) : M unit :=
  st <- get ;;
  if writeCnt st >=? limit then set_writeCnt 0 ;; fwrite LF else ret tt.

(** ['%+0.2f' % x] *)
Definition pawns (x : float) : string := format_f true 2 x.

(** *** AnnotationWriter *)

Definition WriteSanMove (side : bool) (moveNumber : Z) (sanMove : string) : M unit :=
  bump ;;
  if side then fwrite (format_d moveNumber ++ ". " ++ sanMove ++ " ")
  else fwrite (sanMove ++ " ") ;; wrap 4.

Definition WritePosScore (side : bool) (moveNumber : Z) (sanMove : string)
           (posScore : float) : M unit :=
  bump ;;
  if side
  then fwrite (format_d moveNumber ++ ". " ++ sanMove ++ " {" ++ pawns posScore ++ "} ")
  else fwrite (sanMove ++ " {" ++ pawns posScore ++ "} ") ;; wrap 4.

(** [(<n>. <move> {<score> - <engine>}) ], with [dots] after the number. *)
Definition engine_variation (dots : string) (moveNumber : Z) (engMove : string)
           (engScore : float) (engShortName : string) : string :=
  "(" ++ format_d moveNumber ++ dots ++ " " ++ engMove ++ " {" ++ pawns engScore
      ++ " - " ++ engShortName ++ "}) ".

(** [(<n>. <move> {cerebellum}) ], with [dots] after the number. *)
Definition book_variation (dots : string) (moveNumber : Z) (bookMove : string) : string :=
  let bookComment := "cerebellum" in
  "(" ++ format_d moveNumber ++ dots ++ " " ++ bookMove ++ " {" ++ bookComment ++ "}) ".

Section Writer.

Variable cfg : config.

(** [self.engIdName.split()[0]] *)
Definition engShortName : M string := lift (item (split (engIdName cfg)) 0).

Definition WritePosScoreEngMove (side : bool) (moveNumber : Z) (sanMove : string)
           (posScore : float) (engMove : string) (engScore : float)
           (complexityNumber moveChanges : Z) : M unit :=
  engShortName <- engShortName ;;
  bump ;;
  if side then
    if negb (String.eqb sanMove engMove) then
      let moveNag := Nag.GetBadNag side posScore engScore in
      fwrite (format_d moveNumber ++ ". " ++ sanMove ++ " " ++ moveNag
                ++ " {" ++ pawns posScore ++ "} "
                ++ engine_variation "." moveNumber engMove engScore engShortName)
    else
      let moveNag := Nag.GetGoodNag side posScore engScore complexityNumber moveChanges in
      fwrite (format_d moveNumber ++ ". " ++ sanMove ++ " " ++ moveNag
                ++ " {" ++ pawns posScore ++ "} ")
  else
    (if negb (String.eqb sanMove engMove) then
       let moveNag := Nag.GetBadNag side posScore engScore in
       fwrite (format_d moveNumber ++ "... " ++ sanMove ++ " " ++ moveNag
                 ++ " {" ++ pawns posScore ++ "} "
                 ++ engine_variation "..." moveNumber engMove engScore engShortName)
     else
       let moveNag := Nag.GetGoodNag side posScore engScore complexityNumber moveChanges in
       fwrite (sanMove ++ " " ++ moveNag ++ " {" ++ pawns posScore ++ "} ")) ;;
    wrap 2.

Definition WriteBookMove (side : bool) (moveNumber : Z) (sanMove bookMove : string)
  : M unit :=
  bump ;;
  if side
  then fwrite (format_d moveNumber ++ ". " ++ sanMove ++ " "
                 ++ book_variation "." moveNumber bookMove)
  else fwrite (format_d moveNumber ++ "... " ++ sanMove ++ " "
                 ++ book_variation "..." moveNumber bookMove) ;;
       wrap 2.

Definition WritePosScoreBookMove (side : bool) (moveNumber : Z)
           (sanMove bookMove : string) (posScore : float) : M unit :=
  bump ;;
  if side
  then fwrite (format_d moveNumber ++ ". " ++ sanMove ++ " {" ++ pawns posScore ++ "} "
                 ++ book_variation "." moveNumber bookMove)
  else fwrite (format_d moveNumber ++ "... " ++ sanMove ++ " {" ++ pawns posScore ++ "} "
                 ++ book_variation "..." moveNumber bookMove) ;;
       wrap 2.

Definition WritePosScoreBookMoveEngMove (side : bool) (moveNumber : Z)
           (sanMove bookMove : string) (posScore : float)
           (engMove : string) (engScore : float) : M unit :=
  engShortName <- engShortName ;;
  bump ;;
  if side then
    if negb (String.eqb sanMove engMove) then
      let moveNag := Nag.GetBadNag side posScore engScore in
      fwrite (format_d moveNumber ++ ". " ++ sanMove ++ " " ++ moveNag
                ++ " {" ++ pawns posScore ++ "} "
                ++ book_variation "." moveNumber bookMove
                ++ engine_variation "." moveNumber engMove engScore engShortName)
    else
      fwrite (format_d moveNumber ++ ". " ++ sanMove ++ " {" ++ pawns posScore ++ "} "
                ++ book_variation "." moveNumber bookMove)
  else
    (if negb (String.eqb sanMove engMove) then
       let moveNag := Nag.GetBadNag side posScore engScore in
       fwrite (format_d moveNumber ++ "... " ++ sanMove ++ " " ++ moveNag
                 ++ " {" ++ pawns posScore ++ "} "
                 ++ book_variation "..." moveNumber bookMove
                 ++ engine_variation "..." moveNumber engMove engScore engShortName)
     else
       fwrite (format_d moveNumber ++ "... " ++ sanMove ++ " {" ++ pawns posScore ++ "} "
                 ++ book_variation "..." moveNumber bookMove)) ;;
    wrap 2.

(** In the branch of Black playing the engine's move the format arguments
    name [posScore], which this method does not have. *)
Definition WriteBookMoveEngMove (side : bool) (moveNumber : Z)
           (sanMove bookMove engMove : string) (engScore : float) : M unit :=
  engShortName <- engShortName ;;
  bump ;;
  if side then
    if negb (String.eqb sanMove engMove) then
      fwrite (format_d moveNumber ++ ". " ++ sanMove ++ " "
                ++ book_variation "." moveNumber bookMove
                ++ engine_variation "." moveNumber engMove engScore engShortName)
    else
      fwrite (format_d moveNumber ++ ". " ++ sanMove ++ " "
                ++ book_variation "." moveNumber bookMove)
  else
    (if negb (String.eqb sanMove engMove) then
       fwrite (format_d moveNumber ++ "... " ++ sanMove ++ " "
                 ++ book_variation "..." moveNumber bookMove
                 ++ engine_variation "..." moveNumber engMove engScore engShortName)
     else raise NameError) ;;
    wrap 2.

(** [engMove] and [engScore] are [None] together (the one caller sets them
    by one assignment): they are one optional pair here. Case (7) calls
    [WriteEngMove] with one argument fewer than its definition takes. *)
Definition WriteNotation (side : bool) (fmvn : Z) (sanMove : string)
           (bookMove : option string) (posScore : option float)
           (isGameOver : bool) (engine : option (string * float))
           (complexityNumber moveChanges : Z) : M unit :=
  if isGameOver then WriteSanMove side fmvn sanMove            (* (0) *)
  else
    match posScore, bookMove, engine with
    | Some posScore, None, None =>                              (* (1) *)
        WritePosScore side fmvn sanMove posScore
    | Some posScore, Some bookMove, None =>                     (* (2) *)
        WritePosScoreBookMove side fmvn sanMove bookMove posScore
    | Some posScore, None, Some (engMove, engScore) =>          (* (3) *)
        WritePosScoreEngMove side fmvn sanMove posScore engMove engScore
                             complexityNumber moveChanges
    | Some posScore, Some bookMove, Some (engMove, engScore) => (* (4) *)
        WritePosScoreBookMoveEngMove side fmvn sanMove bookMove posScore
                                     engMove engScore
    | None, Some bookMove, None =>                              (* (5) *)
        WriteBookMove side fmvn sanMove bookMove
    | None, Some bookMove, Some (engMove, engScore) =>          (* (6) *)
        WriteBookMoveEngMove side fmvn sanMove bookMove engMove engScore
    | None, None, Some _ => raise TypeError                     (* (7) *)
    | None, None, None => WriteSanMove side fmvn sanMove        (* (8) *)
    end.

End Writer.

End Analyze.

(** ** EngineSession: the requests of the orchestrator *)

Module Session.

Import Py Engine Analyze.

Section WithEngine.

Variable e : engine.
Variable cfg : config.

Definition GetCerebellumBookMove (pos : string) : M (option string) :=
  send (BookProbe pos) ;;
  let reply := go_book e pos in
  let isInfoDepth := info_depth_seen reply in
  let bestMove := book_bestmove reply in
  if negb isInfoDepth
  then ret (Some (UciToSanMove e pos bestMove))
  else ret None.

Definition GetStaticEvalAfterMove (pos : string) : M float :=
  send (StaticEval pos) ;;
  let score :=
    match eval_total e pos with
    | Some total => total
    | None => float_of_int TEST_SEARCH_SCORE
    end in
  lift (assert (negb (PrimFloat.eqb score (float_of_int TEST_SEARCH_SCORE)))) ;;
  ret score.

Definition GetSearchScoreBeforeMove (pos : string) (side : bool) : M (string * float) :=
  send (SearchBeforeMove pos) ;;
  let reply := go_search e pos in
  let scoreCp := parsed_score reply in
  lift (assert (negb (scoreCp =? TEST_SEARCH_SCORE))) ;;
  let bestMove := UciToSanMove e pos (bestmove reply) in
  let scoreCp := if negb side then -1 * scoreCp else scoreCp in
  let scoreP := PrimFloat.div (float_of_int scoreCp) 100.0%float in
  ret (bestMove, scoreP).

Definition GetSearchScoreAfterMove (pos : string) (side : bool) : M (float * Z * Z) :=
  let complexityNumber := 0 in
  let moveChanges := 0 in
  let isGetComplexityNumber :=
    String.eqb (jobOpt cfg) "analyze" && (moveTimeOpt cfg >=? 2000) in
  send (SearchAfterMove pos) ;;
  let reply := go_search e pos in
  let savedMove := if isGetComplexityNumber then pv_samples reply else [] in
  let scoreCp := parsed_score reply in
  lift (assert (negb (scoreCp =? TEST_SEARCH_SCORE))) ;;
  ' (complexityNumber, moveChanges) <-
    (if isGetComplexityNumber
     then lift (Complexity.GetComplexityNumber savedMove)
     else ret (complexityNumber, moveChanges)) ;;
  let scoreCp := -1 * scoreCp in
  let scoreCp := if negb side then -1 * scoreCp else scoreCp in
  let scoreP := PrimFloat.div (float_of_int scoreCp) 100.0%float in
  ret (scoreP, complexityNumber, moveChanges).

(** [self.moveTimeOpt/1000] is Python 2's integer division. *)
Definition GetEpdEngineSearchScore (pos : string) : M (Z * Z * string * Z) :=
  send (EpdSearch pos) ;;
  let reply := go_search e pos in
  let scoreCp := parsed_score reply in
  let depthSearched :=
    match last_depth reply with
    | Some d => d
    | None => TEST_SEARCH_DEPTH
    end in
  let bestMove := UciToSanMove e pos (bestmove reply) in
  lift (assert (negb (depthSearched =? TEST_SEARCH_DEPTH))) ;;
  lift (assert (negb (scoreCp =? TEST_SEARCH_SCORE))) ;;
  ret (depthSearched, moveTimeOpt cfg / 1000, bestMove, scoreCp).

End WithEngine.

End Session.

(** ** AnalysisOrchestrator: PGN *)

Module Pgn.

Import Py Engine Analyze Session.

(** What python-chess gives for one node of the main line: the side to move
    and the full-move number of [gameNode.board()], the SAN of the move to
    [nextNode], the FEN before and after it. *)
Record halfmove : Type := HalfMove {
  side : bool;
  fmvn : Z;
  sanMove : string;
  fenBeforeMove : string;
  fenAfterMove : string
}.

Record game : Type := Game {
  headers : list (string * string);
  mainline : list halfmove
}.

(** [game.headers[key]] *)
Fixpoint header (key : string) (hs : list (string * string)) : result string :=
  match hs with
  | (k, v) :: rest => if String.eqb k key then Ok v else header key rest
  | [] => Raise KeyError
  end.

(** [abs(posScore)]: [None] has no absolute value. *)
Definition py_abs (x : option float) : result float :=
  match x with
  | Some v => Ok (PrimFloat.abs v)
  | None => Raise TypeError
  end.

Section WithEngine.

Variable e : engine.
Variable cfg : config.

(** Steps (3) to (6) of the body of [while gameNode.variations]. *)
Definition evaluate_move (hm : halfmove) (cereBookMove : option string) : M unit :=
  let complexityNumber := 0 in
  let moveChanges := 0 in
  (* (3) *)
  ' (posScore, complexityNumber, moveChanges) <-
    (if String.eqb (evalOpt cfg) "static" then
       staticScore <- GetStaticEvalAfterMove e (fenAfterMove hm) ;;
       ret (Some staticScore, complexityNumber, moveChanges)
     else if String.eqb (evalOpt cfg) "search" then
       ' (searchScore, complexityNumber, moveChanges) <-
         GetSearchScoreAfterMove e cfg (fenAfterMove hm) (side hm) ;;
       ret (Some searchScore, complexityNumber, moveChanges)
     else ret (None, complexityNumber, moveChanges)) ;;
  (* (4) *)
  magnitude <- lift (py_abs posScore) ;;
  engBest <-
    (if PyFloat.le magnitude WIN_SCORE && String.eqb (jobOpt cfg) "analyze" then
       best <- GetSearchScoreBeforeMove e (fenBeforeMove hm) (side hm) ;;
       ret (Some best)
     else ret None) ;;
  (* (5) *)
  let isGameOver := is_game_over e (fenAfterMove hm) in
  (* (6) *)
  WriteNotation cfg (side hm) (fmvn hm) (sanMove hm) cereBookMove posScore
                isGameOver engBest complexityNumber moveChanges.

(** One pass through the loop body. [isCereEnd] is the game's flag: its new
    value is returned. *)
Definition annotate_move (isCereEnd : bool) (hm : halfmove) : M bool :=
  let complexityNumber := 0 in
  let moveChanges := 0 in
  st <- get ;;
  (* (0) *)
  if (fmvn hm <? moveStartOpt cfg) && negb (String.eqb (bookOpt st) "cerebellum") then
    let cereBookMove := None in
    WriteNotation cfg (side hm) (fmvn hm) (sanMove hm) cereBookMove
                  None false None complexityNumber moveChanges ;;
    ret isCereEnd
  else
    (* (1) *)
    ' (cereBookMove, isCereEnd) <-
      (if String.eqb (bookOpt st) "cerebellum" && negb isCereEnd then
         cereBookMove <- GetCerebellumBookMove e (fenBeforeMove hm) ;;
         match cereBookMove with
         | None => ret (cereBookMove,
                        if fmvn hm >? BOOK_MOVE_LIMIT then true else isCereEnd)
         | Some _ => ret (cereBookMove, isCereEnd)
         end
       else ret (None, isCereEnd)) ;;
    (* (2) *)
    match cereBookMove with
    | Some _ =>
        if fmvn hm <? moveStartOpt cfg then
          WriteNotation cfg (side hm) (fmvn hm) (sanMove hm) cereBookMove
                        None false None complexityNumber moveChanges ;;
          ret isCereEnd
        else evaluate_move hm cereBookMove ;; ret isCereEnd
    | None => evaluate_move hm cereBookMove ;; ret isCereEnd
    end.

Fixpoint annotate_moves (isCereEnd : bool) (moves : list halfmove) : M unit :=
  match moves with
  | hm :: rest =>
      isCereEnd <- annotate_move isCereEnd hm ;;
      annotate_moves isCereEnd rest
  | [] => ret tt
  end.

Fixpoint write_headers (hs : list (string * string)) : M unit :=
  match hs with
  | (key, value) :: rest =>
      fwrite ("[" ++ key ++ " " ++ DQ ++ value ++ DQ ++ "]" ++ LF) ;;
      write_headers rest
  | [] => ret tt
  end.

(** The body of [while game]. *)
Definition annotate_game (g : game) : M unit :=
  set_writeCnt 0 ;;
  let isCereEnd := false in
  write_headers (headers g) ;;
  fwrite ("[Annotator " ++ DQ ++ engIdName cfg ++ DQ ++ "]" ++ LF ++ LF) ;;
  (if String.eqb (evalOpt cfg) "static" then
     fwrite ("{Move comments are from engine static evaluation.}" ++ LF)
   else if String.eqb (evalOpt cfg) "search" then
     fwrite ("{Hash " ++ format_d (engHashOpt cfg) ++ "mb, Threads "
               ++ format_d (engThreadsOpt cfg) ++ ", @ "
               ++ format_f false 1
                    (PrimFloat.div (float_of_int (moveTimeOpt cfg)) 1000.0%float)
               ++ "s/pos}" ++ LF)
   else ret tt) ;;
  res <- lift (header "Result" (headers g)) ;;
  annotate_moves isCereEnd (mainline g) ;;
  fwrite (res ++ LF ++ LF).

Fixpoint annotate_games (games : list game) : M unit :=
  match games with
  | g :: rest => annotate_game g ;; annotate_games rest
  | [] => ret tt
  end.

(** [games] is what [chess.pgn.read_game] reads from the input file. *)
Definition AnnotatePgn (games : list game) : M unit :=
  let engineIdName := engIdName cfg in
  st <- get ;;
  (if String.eqb (bookOpt st) "cerebellum" && negb (contains "Brainfish" engineIdName)
   then set_bookOpt "none"
   else ret tt) ;;
  annotate_games games.

End WithEngine.

(** *** Vocabulary of the statements *)

(** The book has a move for the position: its probe ends with no
    [info depth] line. *)
Definition book_answers (e : engine) (hm : halfmove) : bool :=
  negb (info_depth_seen (go_book e (fenBeforeMove hm))).

(** The half-move is written at step (0) or (2) and the loop goes on: it is
    below the consultation ply, and either no book is in use or the book,
    still consulted, has a move. *)
Definition short_circuited (e : engine) (cfg : config) (st : state)
           (isCereEnd : bool) (hm : halfmove) : bool :=
  (fmvn hm <? moveStartOpt cfg) &&
  (negb (String.eqb (bookOpt st) "cerebellum") ||
   (negb isCereEnd && book_answers e hm)).

(** The requests sent between two states. *)
Definition sent_between (old new : state) (sent : list request) : Prop :=
  requests new = (requests old ++ sent)%list.

(** No request sent from [old] to [new] evaluates a position. *)
Definition no_evaluation_between (old new : state) : Prop :=
  exists sent, sent_between old new sent /\
               forallb (fun r => negb (is_evaluation r)) sent = true.

End Pgn.

(** ** Startup *)

Module Startup.

Import Py.

Definition EPD_FILE : Z := 1.
Definition PGN_FILE : Z := 2.

(** The option values after the command line has been read over the
    defaults. *)
Record options : Type := Options {
  inputFile : string;
  outputFile : string;
  engineName : string;
  bookOption : string;
  evalOption : string;
  moveTimeOption : Z;
  engHashOption : Z;
  engThreadsOption : Z;
  moveStartOption : Z;
  jobOption : string
}.

Definition cereBookFile : string := "Cerebellum_Light.bin".

(** [sys.exit(1)] after the message, or the run goes on. *)
Inductive checked (A : Type) : Type :=
| Exit (message : string)
| Continue (a : A).

Arguments Exit {A} message.
Arguments Continue {A} a.

Definition CheckFiles (isfile : string -> bool) (infn outfn engfn : string)
  : checked unit :=
  if negb (isfile infn) then Exit ("Error! " ++ infn ++ " is missing")
  else if String.eqb infn outfn
  then Exit "Error! input filename and output filename is the same"
  else if negb (isfile engfn) then Exit ("Error! " ++ engfn ++ " is missing")
  else if negb (endswith ".epd" infn) && negb (endswith ".pgn" infn)
  then Exit ("Error! " ++ infn ++ " is not an epd or pgn file")
  else Continue tt.

Inductive job : Type :=
| RunTestEngineWithEpd
| RunAnnotateEpd
| RunAnnotatePgn.

(** [main] from [CheckFiles] to the call of the analysis method: the options
    the [Analyze] object is built with, and the method called. *)
Definition main (isfile : string -> bool) (o : options) : checked (options * job) :=
  match CheckFiles isfile (inputFile o) (outputFile o) (engineName o) with
  | Exit m => Exit m
  | Continue _ =>
    let bookOption :=
      if String.eqb (bookOption o) "cerebellum" && negb (isfile cereBookFile)
      then "none" else bookOption o in
    let fileType := if endswith ".epd" (inputFile o) then EPD_FILE else PGN_FILE in
    if String.eqb bookOption "none" && String.eqb (evalOption o) "none"
       && (fileType =? PGN_FILE)
    then Exit "Error! options were not defined. Nothing has been processed."
    else if (fileType =? EPD_FILE) && (moveTimeOption o <=? 0)
    then Exit "Error! movetime is zero."
    else if (fileType =? EPD_FILE) && String.eqb (evalOption o) "none"
            && negb (String.eqb (jobOption o) "test")
    then Exit "Error! -eval was set to none."
    else if (fileType =? PGN_FILE) && negb (String.eqb (jobOption o) "analyze")
    then Exit "Error! -job was not defined with analyze."
    else
      let engThreadsOption :=
        if engThreadsOption o <=? 0 then 1 else engThreadsOption o in
      let o' := Options (inputFile o) (outputFile o) (engineName o) bookOption
                        (evalOption o) (moveTimeOption o) (engHashOption o)
                        engThreadsOption (moveStartOption o) (jobOption o) in
      Continue (o',
                if fileType =? EPD_FILE then
                  if String.eqb (jobOption o) "test" then RunTestEngineWithEpd
                  else RunAnnotateEpd
                else RunAnnotatePgn)
  end.

(** [Analyze(inputFile, outputFile, engineName, **options)]: the object's
    fixed fields and its first state, the output file deleted. *)
Definition Analyze_init (e : Engine.engine) (o : options)
  : Analyze.config * Analyze.state :=
  (Analyze.Config (inputFile o) (outputFile o) (engineName o) (evalOption o)
                  (moveTimeOption o) (engHashOption o) (engThreadsOption o)
                  (moveStartOption o) (jobOption o)
                  (Handshake.GetEngineIdName (engineName o) (Engine.uci_stdout e)),
   Analyze.State (bookOption o) 0 "" []).

End Startup.

(** ** AnalysisOrchestrator: the EPD test suite *)

Module Epd.

Import Py Engine Analyze Session.

Definition GetEpdBm (epdLineList : list string) : result (list string) :=
  do bmIndex <- index "bm" epdLineList;
  let bmStartValue := join " " (skipn (bmIndex + 1) epdLineList) in
  let bmStartValue := strip bmStartValue in
  let semiColonSplit := split_at ";" bmStartValue in
  do bmValue <- item semiColonSplit 0;
  let epdBm := split bmValue in
  Ok epdBm.

Fixpoint IsCorrectEngineBm (engineBm : string) (epdBm : list string) : bool :=
  match epdBm with
  | ebm :: rest => if String.eqb engineBm ebm then true else IsCorrectEngineBm engineBm rest
  | [] => false
  end.

Definition GetHmvcInEpd (epdLine : list string) : result string :=
  if negb (mem "hmvc" epdLine) then Ok "0"
  else
    do hmvcIndex <- index "hmvc" epdLine;
    do hmvcValue <- item epdLine (hmvcIndex + 1);
    let hmvc := drop_last 1 hmvcValue in
    Ok hmvc.

(** The counters of [TestEngineWithEpd]. *)
Record counters : Type := Counters {
  cntEpd : Z;
  cntCorrect : Z;
  cntValidEpd : Z
}.

Section WithEngine.

Variable e : engine.
Variable cfg : config.

(** [chess.Board(fen)] is python-chess's: it raises [ValueError] for a
    string that is not a position (a blank line of the file gives the FEN
    [ 0 1]). [parses] tells which strings the library takes. *)
Variable parses : string -> bool.

Definition Board (fen : string) : result unit :=
  if parses fen then Ok tt else Raise ValueError.

(** The body of [for lines in f]. *)
Definition test_line (cnt : counters) (lines : string) : M counters :=
  let cnt := Counters (cntEpd cnt + 1) (cntCorrect cnt) (cntValidEpd cnt) in
  let epdLine := strip lines in
  let epdLineSplit := split epdLine in
  let epd := join " " (firstn 4 epdLineSplit) in
  hmvc <- lift (GetHmvcInEpd epdLineSplit) ;;
  let fen := epd ++ " " ++ hmvc ++ " 1" in
  lift (Board fen) ;;
  let isGameOver := is_game_over e fen in
  if isGameOver then ret cnt
  else if negb (contains "bm " epdLine) then ret cnt
  else
    epdBm <- lift (GetEpdBm epdLineSplit) ;;
    ' (acd, acs, bm, ce) <- GetEpdEngineSearchScore e cfg fen ;;
    let cnt := Counters (cntEpd cnt) (cntCorrect cnt) (cntValidEpd cnt + 1) in
    let isCorrect := IsCorrectEngineBm bm epdBm in
    if isCorrect
    then ret (Counters (cntEpd cnt) (cntCorrect cnt + 1) (cntValidEpd cnt))
    else ret cnt.

Fixpoint test_lines (cnt : counters) (f : list string) : M counters :=
  match f with
  | lines :: rest => cnt <- test_line cnt lines ;; test_lines cnt rest
  | [] => ret cnt
  end.

(** [f] is the lines of the input file. *)
Definition TestEngineWithEpd (f : list string) : M unit :=
  cnt <- test_lines (Counters 0 0 0) f ;;
  let cntWrong := cntValidEpd cnt - cntCorrect cnt in
  let pctCorrect := 0.0%float in
  pctCorrect <-
    (if negb (cntValidEpd cnt =? 0)
     then lift (float_div_int
                  (PrimFloat.mul 100.0%float (float_of_int (cntCorrect cnt)))
                  (cntValidEpd cnt))
     else ret pctCorrect) ;;
  fwrite (":: EPD " ++ infn cfg ++ " TEST RESULTS ::" ++ LF) ;;
  fwrite ("Engine        : " ++ engIdName cfg ++ LF) ;;
  fwrite ("Time/pos (sec): "
            ++ format_f false 1
                 (PrimFloat.div (float_of_int (moveTimeOpt cfg)) 1000.0%float)
            ++ LF ++ LF) ;;
  fwrite ("Total epd lines       : " ++ format_d (cntEpd cnt) ++ LF) ;;
  fwrite ("Total tested positions: " ++ format_d (cntValidEpd cnt) ++ LF) ;;
  fwrite ("Total correct         : " ++ format_d (cntCorrect cnt) ++ LF) ;;
  fwrite ("Correct percentage    : " ++ format_f false 1 pctCorrect ++ LF).

(** *** Vocabulary of the statements *)

(** The FEN the script builds for a line of the file. *)
Definition position_of (lines : string) : result string :=
  let epdLineSplit := split (strip lines) in
  do hmvc <- GetHmvcInEpd epdLineSplit;
  Ok (join " " (firstn 4 epdLineSplit) ++ " " ++ hmvc ++ " 1").

(** The line is one the loop counts as a tested position: python-chess
    takes its FEN, the position is neither checkmate nor stalemate, and the
    line holds the text [bm ] (the test the loop makes, on the text of the
    line and not on its words). *)
Definition tested (lines : string) : bool :=
  match position_of lines with
  | Ok fen => parses fen && negb (is_game_over e fen) && contains "bm " (strip lines)
  | Raise _ => false
  end.

(** The engine's best move for the record's position. *)
Definition engine_bm (fen : string) : string :=
  UciToSanMove e fen (bestmove (go_search e fen)).

(** A tested record whose engine best move is one of its accepted moves. *)
Definition matched (lines : string) : bool :=
  tested lines &&
  match position_of lines, GetEpdBm (split (strip lines)) with
  | Ok fen, Ok accepted => existsb (String.eqb (engine_bm fen)) accepted
  | _, _ => false
  end.

(** The search of a position reports a depth and a score. *)
Definition answered (fen : string) : bool :=
  negb (match last_depth (go_search e fen) with
        | Some d => d
        | None => TEST_SEARCH_DEPTH
        end =? TEST_SEARCH_DEPTH)
  && negb (parsed_score (go_search e fen) =? TEST_SEARCH_SCORE).

(** A line the loop body gets through: its FEN can be built and
    python-chess takes it, and if the record is tested its [bm] operand can
    be read and the engine answers. *)
Definition readable (lines : string) : Prop :=
  exists fen,
    position_of lines = Ok fen /\
    parses fen = true /\
    (tested lines = true ->
     (exists accepted, GetEpdBm (split (strip lines)) = Ok accepted) /\
     answered fen = true).


(** A line python-chess stops at: it does not take the line's FEN (a blank
    line, say). *)
Definition rejected (lines : string) : Prop :=
  exists fen, position_of lines = Ok fen /\ parses fen = false.

Definition count (p : string -> bool) (f : list string) : Z :=
  Z.of_nat (List.length (filter p f)).

(** The counters after one more line. *)
Definition step (cnt : counters) (lines : string) : counters :=
  Counters (cntEpd cnt + 1)
           (cntCorrect cnt + if matched lines then 1 else 0)
           (cntValidEpd cnt + if tested lines then 1 else 0).

(** [100.0 * c / n] in doubles. *)
Definition percentage (c n : Z) : float :=
  PrimFloat.div (PrimFloat.mul 100.0%float (float_of_int c)) (float_of_int n).

(** *** The summary as the specification words it *)

(** The summary report: the heading with the name of the input file, the
    engine, the time per position in seconds, then the total of lines, the
    number [N] of tested positions, the number [C] of correct ones and the
    percentage, already formatted. *)
Definition summary_text (lines N C : Z) (pct : string) : string :=
  ":: EPD " ++ infn cfg ++ " TEST RESULTS ::" ++ LF
  ++ "Engine        : " ++ engIdName cfg ++ LF
  ++ "Time/pos (sec): "
  ++ format_f false 1 (PrimFloat.div (float_of_int (moveTimeOpt cfg)) 1000.0%float)
  ++ LF ++ LF
  ++ "Total epd lines       : " ++ format_d lines ++ LF
  ++ "Total tested positions: " ++ format_d N ++ LF
  ++ "Total correct         : " ++ format_d C ++ LF
  ++ "Correct percentage    : " ++ pct ++ LF.

(** The record has a [bm] opcode: [bm] is one of its words. *)
Definition has_bm_opcode (lines : string) : bool := mem "bm" (split (strip lines)).

(** A valid record in the specification's sense: a position that is neither
    checkmate nor stalemate, with a [bm] opcode. *)
Definition valid_record (lines : string) : bool :=
  match position_of lines with
  | Ok fen => parses fen && negb (is_game_over e fen) && has_bm_opcode lines
  | Raise _ => false
  end.

End WithEngine.

End Epd.

(** ** A concrete engine and a concrete game, for the examples *)

Module Example.

Import Engine Analyze Pgn.

Definition start_fen : string :=
  "rnbqkbnr/pppppppp/8/8/8/8/PPPPPPPP/RNBQKBNR w KQkq - 0 1".

Definition e4_fen : string :=
  "rnbqkbnr/pppppppp/8/8/4P3/8/PPPP1PPP/RNBQKBNR b KQkq - 0 1".

(** An engine that is out of book (its probe shows an [info depth] line),
    evaluates every position at [0.25] and finds [e2e4] at depth 12 with
    [score cp 30]. *)
Definition engine_out_of_book : engine :=
  EngineOf ["id name Brainfish 280816 64 POPCNT" ++ Py.LF; "uciok" ++ Py.LF]
           (fun _ => BookReply true "e2e4")
           (fun _ => Some 0.25%float)
           (fun _ => SearchReply (Some (ScoreCp 30)) (Some 12) [] "e2e4")
           (fun _ uci => if String.eqb uci "e2e4" then "e4" else uci)
           (fun _ => false).

(** The same engine with a book move for every position. *)
Definition engine_in_book : engine :=
  EngineOf (uci_stdout engine_out_of_book)
           (fun _ => BookReply false "e2e4")
           (eval_total engine_out_of_book)
           (go_search engine_out_of_book)
           (UciToSanMove engine_out_of_book)
           (is_game_over engine_out_of_book).

(** [-eval static -movestart 8 -job analyze] *)
Definition static_config : config :=
  Config "games.pgn" "out.pgn" "Brainfish.exe" "static" 0 32 1 8 "analyze"
         "Brainfish 280816 64 POPCNT".

(** [-eval none -movestart 8 -job analyze] *)
Definition none_config : config :=
  Config "games.pgn" "out.pgn" "Brainfish.exe" "none" 0 32 1 8 "analyze"
         "Brainfish 280816 64 POPCNT".

(** The start of a run with [-book cerebellum]. *)
Definition with_book : state := State "cerebellum" 0 "" [].

(** The start of a run with [-book none]. *)
Definition without_book : state := State "none" 0 "" [].

(** White's first move, [1. e4]. *)
Definition first_move : halfmove := HalfMove true 1 "e4" start_fen e4_fen.

(** White's eighth move. *)
Definition eighth_move : halfmove := HalfMove true 8 "O-O" start_fen e4_fen.

(** The command line [-infile games.pgn -outfile out.pgn -eng Brainfish.exe
    -book cerebellum -eval none -job analyze], over the defaults. *)
Definition none_options : Startup.options :=
  Startup.Options "games.pgn" "out.pgn" "Brainfish.exe" "cerebellum" "none"
                  0 32 1 8 "analyze".

(** The input file, the engine and the book are all there. *)
Definition all_files (fn : string) : bool := true.

(** An engine for the test suite: every search ends at depth 20 with
    [score cp 30] and [bestmove e7e5]; the one position it is given with no
    legal move is a stalemate. *)
Definition stalemate_fen : string := "7k/5Q2/6K1/8/8/8/8/8 b - - 0 1".

Definition engine_e5 : engine :=
  EngineOf ["uciok" ++ Py.LF]
           (fun _ => BookReply true "e7e5")
           (fun _ => Some 0.25%float)
           (fun _ => SearchReply (Some (ScoreCp 30)) (Some 20) [] "e7e5")
           (fun _ uci => if String.eqb uci "e7e5" then "e5" else uci)
           (fun fen => String.eqb fen stalemate_fen).

(** [-job test -movetime 1000] *)
Definition test_config : config :=
  Config "suite.epd" "out.txt" "engine.exe" "search" 1000 32 1 8 "test" "engine".

(** A suite of four records: one the engine solves, one it misses, a
    stalemate, and one with no [bm] operation. *)
Definition suite : list string :=
  ["rnbqkbnr/pppppppp/8/8/4P3/8/PPPP1PPP/RNBQKBNR b KQkq - 0 1 bm e5 e6;" ++ Py.LF;
   "rnbqkbnr/pppppppp/8/8/4P3/8/PPPP1PPP/RNBQKBNR b KQkq - bm c5;" ++ Py.LF;
   "7k/5Q2/6K1/8/8/8/8/8 b - - bm Kg8;" ++ Py.LF;
   "rnbqkbnr/pppppppp/8/8/4P3/8/PPPP1PPP/RNBQKBNR b KQkq - id open;" ++ Py.LF].



(** A reader of FENs for the examples: it takes the strings of six fields. *)
Definition six_fields (fen : string) : bool :=
  (List.length (Py.split fen) =? 6)%nat.

(** A record with a legal position and no [bm] operation: it gives the
    move supplied with the position ([sbm]). *)
Definition sbm_record : string :=
  "rnbqkbnr/pppppppp/8/8/4P3/8/PPPP1PPP/RNBQKBNR b KQkq - sbm e5;" ++ Py.LF.

(** The record the engine solves, then the [sbm] record. *)
Definition sbm_suite : list string :=
  ["rnbqkbnr/pppppppp/8/8/4P3/8/PPPP1PPP/RNBQKBNR b KQkq - 0 1 bm e5 e6;" ++ Py.LF;
   sbm_record].

(** A record whose [bm] opcode is followed by a tab. *)
Definition tab_record : string :=
  "rnbqkbnr/pppppppp/8/8/4P3/8/PPPP1PPP/RNBQKBNR b KQkq - bm"
    ++ String "009" "e5;" ++ Py.LF.

End Example.

(** ** The command line *)

Module CommandLine.

Import Py Startup.

(** [l[::2]] *)
Fixpoint evens (l : list string) : list string :=
  match l with
  | a :: _ :: rest => a :: evens rest
  | [a] => [a]
  | [] => []
  end.

(** [l[1::2]] *)
Fixpoint odds (l : list string) : list string :=
  match l with
  | _ :: b :: rest => b :: odds rest
  | _ => []
  end.

(** A [dict] with string keys and values: each key once. *)
Definition dict : Type := list (string * string).

(** [d[k] = v] *)
Fixpoint dict_set (k v : string) (d : dict) : dict :=
  match d with
  | (k', v') :: rest =>
      if String.eqb k' k then (k', v) :: rest else (k', v') :: dict_set k v rest
  | [] => [(k, v)]
  end.

(** [d.get(k)], [None] when [d.has_key(k)] is false. *)
Fixpoint dict_get (k : string) (d : dict) : option string :=
  match d with
  | (k', v') :: rest => if String.eqb k' k then Some v' else dict_get k rest
  | [] => None
  end.

(** [dict(pairs)]: the pairs are set in order. *)
Definition dict_of (pairs : list (string * string)) : dict :=
  fold_left (fun d kv => dict_set (fst kv) (snd kv) d) pairs [].

Definition EvaluateOptions (opt : list string) : dict :=
  dict_of (combine (evens opt) (odds opt)).

(** The value of an option: a string as given, or an int. *)
Inductive value : Type :=
| Str (s : string)
| Int (n : Z).

Section WithInt.

(** [int(s)] on a string: the integer [s] spells, [ValueError] when it
    spells none. *)
Variable py_int : string -> result Z.

Definition GetOptionValue (opt : dict) (optName : string) (var : value)
  : result value :=
  match dict_get optName opt with
  | Some v =>
      if String.eqb optName "-movetime" then do n <- py_int v; Ok (Int n)
      else if String.eqb optName "-enghash" then do n <- py_int v; Ok (Int n)
      else if String.eqb optName "-engthreads" then do n <- py_int v; Ok (Int n)
      else if String.eqb optName "-movestart" then do n <- py_int v; Ok (Int n)
      else Ok (Str v)
  | None => Ok var
  end.

(** The variable holds a string (an int there would fail at its first use
    as a string). *)
Definition as_str (v : value) : result string :=
  match v with
  | Str s => Ok s
  | Int _ => Raise TypeError
  end.

Definition as_int (v : value) : result Z :=
  match v with
  | Int n => Ok n
  | Str _ => Raise TypeError
  end.

(** [main] up to [CheckFiles]: the option values, read from [argv] over the
    defaults. *)
Definition read_options (argv : list string) : result options :=
  let inputFile := Str "src.pgn" in
  let outputFile := Str "out_src.pgn" in
  let engineName := Str "engine.exe" in
  let bookOption := Str "none" in
  let evalOption := Str "static" in
  let moveTimeOption := Int 0 in
  let engHashOption := Int 32 in
  let engThreadsOption := Int 1 in
  let moveStartOption := Int 8 in
  let jobOption := Str "analyze" in
  let options := EvaluateOptions argv in
  do '(inputFile, outputFile, engineName, bookOption, evalOption,
       moveTimeOption, engHashOption, engThreadsOption, moveStartOption,
       jobOption) <-
    (if negb (Nat.eqb (List.length options) 0) then
       do inputFile <- GetOptionValue options "-infile" inputFile;
       do outputFile <- GetOptionValue options "-outfile" outputFile;
       do engineName <- GetOptionValue options "-eng" engineName;
       do bookOption <- GetOptionValue options "-book" bookOption;
       do evalOption <- GetOptionValue options "-eval" evalOption;
       do moveTimeOption <- GetOptionValue options "-movetime" moveTimeOption;
       do engHashOption <- GetOptionValue options "-enghash" engHashOption;
       do engThreadsOption <- GetOptionValue options "-engthreads" engThreadsOption;
       do moveStartOption <- GetOptionValue options "-movestart" moveStartOption;
       do jobOption <- GetOptionValue options "-job" jobOption;
       Ok (inputFile, outputFile, engineName, bookOption, evalOption,
           moveTimeOption, engHashOption, engThreadsOption, moveStartOption,
           jobOption)
     else
       Ok (inputFile, outputFile, engineName, bookOption, evalOption,
           moveTimeOption, engHashOption, engThreadsOption, moveStartOption,
           jobOption));
  do inputFile <- as_str inputFile;
  do outputFile <- as_str outputFile;
  do engineName <- as_str engineName;
  do bookOption <- as_str bookOption;
  do evalOption <- as_str evalOption;
  do moveTimeOption <- as_int moveTimeOption;
  do engHashOption <- as_int engHashOption;
  do engThreadsOption <- as_int engThreadsOption;
  do moveStartOption <- as_int moveStartOption;
  do jobOption <- as_str jobOption;
  Ok (Options inputFile outputFile engineName bookOption evalOption
              moveTimeOption engHashOption engThreadsOption moveStartOption
              jobOption).

(** The value [int] gives for a numeric option, when the option is given. *)
Definition numeric (opt : dict) (optName : string) (default : Z) : result Z :=
  match dict_get optName opt with
  | Some v => py_int v
  | None => Ok default
  end.

(** The value of a string option. *)
Definition textual (opt : dict) (optName default : string) : string :=
  match dict_get optName opt with
  | Some v => v
  | None => default
  end.

End WithInt.

(** The last value given to [k] among the pairs of [argv], if any. *)
Fixpoint last_value (k : string) (argv : list string) : option string :=
  match argv with
  | k' :: v :: rest =>
      match last_value k rest with
      | Some v' => Some v'
      | None => if String.eqb k' k then Some v else None
      end
  | _ => None
  end.

End CommandLine.

(** ** Vocabulary of the further statements *)

Module Further.

Import Py Engine Analyze Session.

(** The FEN of a line of an EPD file, the empty string when it cannot be
    built. *)
Definition fen_of (lines : string) : string :=
  match Epd.position_of lines with
  | Ok fen => fen
  | Raise _ => ""
  end.


(** No character of the string is whitespace. *)
Fixpoint no_space (s : string) : bool :=
  match s with
  | String c s' => negb (is_space c) && no_space s'
  | EmptyString => true
  end.

(** A move as an EPD record writes it: a word (not empty, no whitespace)
    without a semicolon. *)
Definition move_word (w : string) : Prop :=
  w <> "" /\ no_space w = true /\ Handshake.has_char ";" w = false.

(** What [' '.join] puts after a first word: nothing, or a space and the
    other words joined. *)
Definition continued (rest : list string) : string :=
  match rest with
  | [] => ""
  | _ => " " ++ join " " rest
  end.

End Further.

(** ** Further examples *)

Module FurtherExample.

(** An [int] for the examples: it reads the strings of decimal digits. *)
Fixpoint digits (acc : Z) (s : string) : result Z :=
  match s with
  | String c rest =>
      let n := nat_of_ascii c in
      if (48 <=? n)%nat && (n <=? 57)%nat
      then digits (10 * acc + Z.of_nat (n - 48)) rest
      else Raise ValueError
  | EmptyString => Ok acc
  end.

Definition int_of_digits (s : string) : result Z :=
  match s with
  | EmptyString => Raise ValueError
  | _ => digits 0 s
  end.

(** [-book cerebellum -eval static -job analyze] for [games.pgn], with the
    book file missing. *)
Definition book_options : Startup.options :=
  Startup.Options "games.pgn" "out.pgn" "Brainfish.exe" "cerebellum" "static"
                  0 32 1 8 "analyze".

Definition no_book_file (fn : string) : bool :=
  negb (String.eqb fn Startup.cereBookFile).

End FurtherExample.

(** ** AnalysisOrchestrator: annotating an EPD file *)

Module EpdAnnotate.

Import Py Engine Analyze Session.





Section WithEngine.

Variable e : engine.
Variable cfg : config.

(** [chess.Board(fen)], as for the test suite. *)
Variable parses : string -> bool.

(** [self.GetEpdEngineStaticScore]: it ends with [int(scoreP * 100.0)],
    which for an infinite [scoreP] raises an exception the script meets
    nowhere else; the method is left to the caller here. *)
Variable GetEpdEngineStaticScore : string -> M Z.




(** *** Vocabulary of the statements *)






End WithEngine.



End EpdAnnotate.

(** ** What a method does to the state *)

Module Effects.

Import Py Engine Analyze Pgn.

(** From [st] to [st']: the book option is the same, the output file has
    grown at its end, and the requests sent in between all satisfy [P]. *)
Definition extends (P : request -> bool) (st st' : state) : Prop :=
  bookOpt st' = bookOpt st /\
  (exists text, outfile st' = outfile st ++ text) /\
  (exists sent, requests st' = (requests st ++ sent)%list /\ forallb P sent = true).

(** The method takes every state whose book option satisfies [B] to a state
    that extends it, whether it returns or raises. *)
Definition effect {A : Type} (B : string -> Prop) (P : request -> bool)
           (m : M A) : Prop :=
  forall st, B (bookOpt st) -> extends P st (snd (m st)).

Definition any_book (b : string) : Prop := True.

Definition not_cerebellum (b : string) : Prop := b <> "cerebellum".

(** The first thing the method does to the engine is to send [r]. *)
Definition sends_first {A : Type} (r : request) (m : M A) : Prop :=
  forall st, exists sent, requests (snd (m st)) = (requests st ++ r :: sent)%list.

(** A king and pawn ending at move 31, for the examples. *)
Definition late_fen : string := "8/8/4k3/8/8/4K3/4P3/8 w - - 0 31".

Definition late_fen_e4 : string := "8/8/4k3/8/4P3/4K3/8/8 b - - 0 31".

Definition late_fen_Kd6 : string := "8/8/3k4/8/4P3/4K3/8/8 w - - 1 32".

Definition late_move : halfmove := HalfMove true 31 "e4" late_fen late_fen_e4.

Definition late_reply : halfmove := HalfMove false 31 "Kd6" late_fen_e4 late_fen_Kd6.

Definition short_game : game :=
  Game [("Event", "Test"); ("Result", "1-0")] [Example.first_move].



(** The search left [scoreCp] at its initial value: it printed no score, or
    its last score is one that has that value. *)
Definition no_score (r : search_reply) : Prop :=
  last_score r = None \/
  last_score r = Some (ScoreCp 100000) \/
  last_score r = Some (ScoreMate (-66000)).



End Effects.

(** * Theorems *)

(** C5: [MateDistanceToValue] is strictly decreasing in the mate distance on
    each side of zero (for [d1 < d2] both positive, or both negative, the value
    of [d1] is above the value of [d2]), and for every distance [d] with
    [1 <= |d| <= 1000] the magnitude of its value is above 29999. *)
Theorem MateDistanceToValue_order :
  (forall d1 d2 : Z,
      d1 < d2 -> 0 < d1 \/ d2 < 0 ->
      MateDistanceToValue d1 > MateDistanceToValue d2) /\
  (forall d : Z,
      1 <= Z.abs d <= 1000 -> Z.abs (MateDistanceToValue d) > 29999).
Proof.
  unfold MateDistanceToValue, MAX_SCORE.
  split; intros;
    repeat match goal with
           | |- context [?a >? ?b] => rewrite (Z.gtb_ltb a b)
           | |- context [?a <? ?b] => destruct (Z.ltb_spec a b)
           end; lia.
Qed.

Lemma MateDistanceToValue_order_witness :
  MateDistanceToValue 1 > MateDistanceToValue 2 /\
  MateDistanceToValue (-2) > MateDistanceToValue (-1) /\
  Z.abs (MateDistanceToValue (-1000)) > 29999.
Proof.
  split; [apply (proj1 MateDistanceToValue_order 1 2); lia|].
  split; [apply (proj1 MateDistanceToValue_order (-2) (-1)); lia|].
  apply (proj2 MateDistanceToValue_order (-1000)); lia.
Defined.

Section NagTheorems.

Import Nag PyFloat.
Local Open Scope float_scope.

(** C1: [GetBadNag] is the specification's ladder with the final override,
    taken on the side-to-move scores: Blunder, Mistake, Dubious, Mistake by
    the four thresholds in that order, and Interesting whenever
    [posScore >= engScore], whatever the ladder chose; White with
    [posScore = engScore = -2.0] gets Interesting ([$5]). *)
Theorem GetBadNag_ladder_then_override :
  (forall side posScore engScore,
      GetBadNag side posScore engScore =
      nag_token (BadNag (side_pov side posScore) (side_pov side engScore))) /\
  BadNag_ladder (-2.0) (-2.0) = NoGlyph /\
  (forall p e, BadNag p e = Interesting \/ BadNag p e = BadNag_ladder p e) /\
  GetBadNag true (-2.0) (-2.0) = "$5"%string.
Proof.
  split; [|split; [reflexivity|split; [|reflexivity]]].
  - intros side p e.
    unfold GetBadNag, BadNag, BadNag_ladder, drops_below, side_pov, lt, le, gt, ge.
    destruct side; cbn [negb];
      repeat match goal with
             | |- context [if ?b then _ else _] => destruct b eqn:?; cbn [andb nag_token]
             end; try reflexivity; try discriminate.
  - intros p e. unfold BadNag. destruct (e <=? p); auto.
Qed.

(** C2: [GetGoodNag] is the specification's threshold ladder, taken on the
    side-to-move scores: VeryGood, else Good, else Interesting, else no glyph
    ([$0]); White with 4 PV changes, complexity 45 and scores 1.0 over 0.5
    gets VeryGood, and Good with complexity 44. *)
Theorem GetGoodNag_threshold_ladder :
  (forall side posScore engScore complexityNumber moveChanges,
      GetGoodNag side posScore engScore complexityNumber moveChanges =
      nag_token (GoodNag (side_pov side posScore) (side_pov side engScore)
                         complexityNumber moveChanges)) /\
  GetGoodNag true 1.0 0.5 45 4 = nag_token VeryGood /\
  GetGoodNag true 1.0 0.5 44 4 = nag_token Good.
Proof.
  split; [|split; reflexivity].
  intros side p e c m.
  unfold GetGoodNag, GoodNag, within, side_pov, lt, le, gt, ge.
  rewrite !Z.geb_leb.
  destruct side; cbn [negb];
    repeat match goal with
           | |- context [PrimFloat.ltb ?a ?b] => destruct (PrimFloat.ltb a b)
           | |- context [PrimFloat.leb ?a ?b] => destruct (PrimFloat.leb a b)
           | |- context [Z.leb ?a ?b] => destruct (Z.leb a b)
           end; reflexivity.
Qed.

End NagTheorems.

Example format_examples :
  Py.format_f true 2 (0.25)%float = "+0.25" /\
  Py.format_f true 2 (-1.5)%float = "-1.50" /\
  Py.format_f true 2 (0.125)%float = "+0.12" /\
  Py.format_f true 2 (2.675)%float = "+2.67" /\
  Py.format_f false 1 (75)%float = "75.0" /\
  Py.format_f false 1 (0.25)%float = "0.2" /\
  Py.format_f false 1 (66.66666666666667)%float = "66.7" /\
  Py.format_f true 2 (-0.001)%float = "-0.00" /\
  Py.format_d (-12) = "-12" /\
  Py.split "  a bc   d " = ["a"; "bc"; "d"] /\
  Py.strip ("  a b " ++ Py.LF) = "a b" /\
  Py.split_at ";" "e4 Nf3; c0 x;" = ["e4 Nf3"; " c0 x"; ""] /\
  Py.contains "bm " "x bm e4;" = true /\
  Py.drop_last 4 "engine.exe" = "engine" /\
  Py.drop_last 4 "abc" = "" /\
  Py.join " " ["a";"b"] = "a b".
Proof. vm_compute. repeat split. Qed.

(** ** The complexity number *)

Section ComplexityTheorems.

Import Complexity.

(** One pass through the loop body with [lastDepth] and [lastMove] bound to
    the sample [prev]. *)
Lemma loop_body_bound (prev cur : sample) (c m : Z) :
  loop_body (Locals c m (Some (fst prev)) (Some (snd prev))) cur =
  Ok (Locals (c + if hit (prev, cur) then fst cur else 0)
             (m + if hit (prev, cur) then 1 else 0)
             (Some (fst cur)) (Some (snd cur))).
Proof.
  unfold loop_body, pv_changed, hit, deep_current, differs.
  cbn [fst snd read bind lastMove lastDepth complexityNumber moveChanges].
  rewrite Z.geb_leb.
  destruct (10 <=? fst cur); cbn [andb bind complexityNumber moveChanges];
    [|now rewrite !Z.add_0_r].
  destruct (String.eqb (snd cur) (snd prev));
    cbn [negb andb bind complexityNumber moveChanges lastDepth lastMove];
    [now rewrite !Z.add_0_r|].
  destruct (fst cur =? fst prev);
    cbn [negb bind complexityNumber moveChanges lastDepth lastMove];
    [now rewrite !Z.add_0_r|reflexivity].
Qed.

Lemma tally_cons (pc : sample * sample) (l : list (sample * sample)) :
  tally (filter deep_current (pc :: l)) =
  ((if hit pc then fst (snd pc) else 0) + fst (tally (filter deep_current l)),
   (if hit pc then 1 else 0) + snd (tally (filter deep_current l))).
Proof.
  unfold tally, hit. cbn [filter].
  destruct (deep_current pc); cbn [andb filter]; [|reflexivity].
  destruct (differs pc); cbn [sum_depths fold_right List.length fst snd];
    [|reflexivity].
  rewrite Nat2Z.inj_succ. f_equal. lia.
Qed.

(** Once [lastDepth] and [lastMove] are bound the scan cannot fail, and it
    adds to the counters what [tally] finds among the consecutive pairs whose
    second sample has depth at least 10. *)
Lemma scan_bound (t : list sample) :
  forall (prev : sample) (c m : Z),
    exists ld lm,
      scan (Locals c m (Some (fst prev)) (Some (snd prev))) t =
      Ok (Locals (c + fst (tally (filter deep_current (consecutive (prev :: t)))))
                 (m + snd (tally (filter deep_current (consecutive (prev :: t)))))
                 (Some ld) (Some lm)).
Proof.
  induction t as [|cur rest IH]; intros prev c m.
  - exists (fst prev), (snd prev). cbn. now rewrite !Z.add_0_r.
  - cbn [scan]. rewrite loop_body_bound. cbn [bind].
    destruct (IH cur (c + if hit (prev, cur) then fst cur else 0)
                     (m + if hit (prev, cur) then 1 else 0)) as (ld & lm & E).
    exists ld, lm. rewrite E.
    change (consecutive (prev :: cur :: rest))
      with ((prev, cur) :: consecutive (cur :: rest)).
    rewrite tally_cons. cbn [fst snd]. f_equal. f_equal; lia.
Qed.

(** A scan that meets a sample of depth at least 10 first reads [lastMove]
    before anything bound it. *)
Lemma scan_unbound (n : sample) (rest : list sample) (c m : Z) :
  10 <= fst n -> scan (Locals c m None None) (n :: rest) = Raise NameError.
Proof.
  intros H. cbn [scan]. unfold loop_body, pv_changed. cbn [lastMove read bind].
  rewrite Z.geb_leb. apply Z.leb_le in H. now rewrite H.
Qed.

(** On a trace that starts below depth 10 the scan returns the tally of the
    whole trace. *)
Lemma GetComplexityNumber_starts_shallow (t : list sample) :
  starts_shallow t = true -> GetComplexityNumber t = Ok (complexity_of_trace t).
Proof.
  destruct t as [|n rest]; intros H; [reflexivity|].
  cbn [starts_shallow] in H.
  unfold GetComplexityNumber, complexity_of_trace. cbn [scan].
  unfold loop_body. rewrite Z.geb_leb.
  replace (10 <=? fst n) with false
    by (symmetry; apply Z.leb_gt; now apply Z.ltb_lt).
  cbn [bind complexityNumber moveChanges].
  destruct (scan_bound rest n 0 0) as (ld & lm & E). rewrite E.
  cbn [bind complexityNumber moveChanges]. rewrite !Z.add_0_l.
  now destruct (tally _).
Qed.

(** C4: [GetComplexityNumber] reads [lastMove] and [lastDepth] before any
    assignment, and raises [NameError], on every trace whose first sample has
    depth at least 10; on the empty trace and on every trace whose first
    sample has depth below 10 it returns a pair
    [(complexityNumber, moveChanges)]. *)
Theorem GetComplexityNumber_total_iff_starts_shallow :
  (forall (n : sample) (rest : list sample),
      10 <= fst n -> GetComplexityNumber (n :: rest) = Raise NameError) /\
  (forall t : list sample,
      starts_shallow t = true ->
      exists complexityNumber moveChanges,
        GetComplexityNumber t = Ok (complexityNumber, moveChanges)).
Proof.
  split.
  - intros n rest H. unfold GetComplexityNumber. now rewrite scan_unbound.
  - intros t H. rewrite (GetComplexityNumber_starts_shallow t H).
    destruct (complexity_of_trace t) as [c m]. now exists c, m.
Qed.

Lemma GetComplexityNumber_total_iff_starts_shallow_witness :
  GetComplexityNumber [(12, "e2e4"); (13, "d2d4")] = Raise NameError /\
  exists complexityNumber moveChanges,
    GetComplexityNumber [(1, "e2e4"); (10, "e2e4"); (11, "d2d4")] =
    Ok (complexityNumber, moveChanges).
Proof.
  split.
  - apply (proj1 GetComplexityNumber_total_iff_starts_shallow). cbn. lia.
  - apply (proj2 GetComplexityNumber_total_iff_starts_shallow). reflexivity.
Defined.

(** C3, as the code has it: a sample of depth below 10 is never counted, but
    it is the previous sample of the one after it. On a trace that is empty
    or starts below depth 10, [GetComplexityNumber] returns the sum of the
    depths, and the number, of the samples of depth at least 10 whose PV move
    and depth both differ from those of the sample just before them in the
    unfiltered trace. *)
Theorem GetComplexityNumber_counts_deep_samples_only (t : list sample) :
  starts_shallow t = true ->
  GetComplexityNumber t = Ok (complexity_of_trace t) /\
  Forall (fun pc => 10 <= fst (snd pc) /\ differs pc = true)
         (filter differs (filter deep_current (consecutive t))).
Proof.
  intros H. split; [now apply GetComplexityNumber_starts_shallow|].
  apply Forall_forall. intros pc Hin.
  apply filter_In in Hin. destruct Hin as [Hin Hd].
  apply filter_In in Hin. destruct Hin as [_ Hdeep].
  split; [now apply Z.leb_le|assumption].
Qed.

Lemma GetComplexityNumber_counts_deep_samples_only_witness :
  GetComplexityNumber [(9, "e2e4"); (10, "d2d4"); (11, "d2d4"); (12, "g1f3")] =
  Ok (22, 2).
Proof.
  exact (proj1 (GetComplexityNumber_counts_deep_samples_only
                  [(9, "e2e4"); (10, "d2d4"); (11, "d2d4"); (12, "g1f3")]
                  eq_refl)).
Defined.

(** C3, as stated, fails: the depth-10 sample that follows a depth-9 sample
    is counted against it, and the trace without its depth-9 sample does not
    give the same result. *)
Lemma GetComplexityNumber_shallow_sample_is_previous :
  GetComplexityNumber [(9, "e2e4"); (10, "d2d4")] = Ok (10, 1) /\
  complexity_of_deep_samples [(9, "e2e4"); (10, "d2d4")] = (0, 0) /\
  GetComplexityNumber (discard_shallow [(9, "e2e4"); (10, "d2d4")]) <> Ok (10, 1).
Proof.
  split; [reflexivity|]. split; [reflexivity|]. cbn. discriminate.
Qed.

End ComplexityTheorems.

(** ** The engine's name *)

Section HandshakeTheorems.

Import Py Handshake.

Lemma length_app (a b : string) :
  String.length (a ++ b) = (String.length a + String.length b)%nat.
Proof.
  induction a as [|c a IH]; cbn; [reflexivity|now rewrite IH].
Qed.

Lemma substring_app_left (a b : string) :
  substring 0 (String.length a) (a ++ b) = a.
Proof.
  induction a as [|c a IH]; cbn.
  - now destruct b.
  - now rewrite IH.
Qed.

(** Dropping the last characters of [a ++ b] leaves [a] when [b] has that
    many. *)
Lemma drop_last_app (k : nat) (a b : string) :
  String.length b = k -> drop_last k (a ++ b) = a.
Proof.
  intros H. unfold drop_last. rewrite length_app, H.
  replace (String.length a + k - k)%nat with (String.length a) by lia.
  apply substring_app_left.
Qed.

Lemma has_char_app (c : ascii) (a b : string) :
  has_char c (a ++ b) = has_char c a || has_char c b.
Proof.
  induction a as [|c' a IH]; cbn; [reflexivity|].
  now rewrite IH, orb_assoc.
Qed.

(** The extension of [base ++ "." ++ ext] is [ext] when [ext] has neither a
    dot nor a slash. *)
Lemma minus_extension_app (base ext : string) :
  has_char "." ext = false -> has_char "/" ext = false ->
  minus_extension (base ++ String "." ext) = base.
Proof.
  intros Hdot Hslash. induction base as [|c base IH].
  - cbn. now rewrite Hdot, Hslash.
  - cbn [append minus_extension]. rewrite IH.
    rewrite (has_char_app "." base). cbn [has_char].
    rewrite Ascii.eqb_refl, orb_true_r. cbn [orb negb andb].
    now rewrite andb_false_r.
Qed.

(** With no [id name] among the lines read, the loop leaves the name as it
    was. *)
Lemma read_id_name_unchanged (stdout : list string) (name : string) :
  (forall eline, In eline (lines_read stdout) ->
                 contains "id name " (strip eline) = false) ->
  read_id_name name stdout = name.
Proof.
  induction stdout as [|eline rest IH]; intros H; [reflexivity|].
  cbn [read_id_name lines_read] in *.
  destruct (String.eqb eline ""); [reflexivity|].
  destruct (contains "uciok" (strip eline)).
  - rewrite (H eline); [reflexivity|now left].
  - rewrite (H eline); [|now left]. apply IH. intros l Hl. apply H. now right.
Qed.

(** C7, as the code has it: when the handshake shows no [id name] line, the
    engine's name is the path of the engine less its last four characters
    (nothing is left of a path of four characters or fewer); this is the path
    less its extension when the path ends in a dot and an extension of three
    characters. *)
Theorem GetEngineIdName_fallback_drops_four (eng : string) (stdout : list string) :
  (forall eline, In eline (lines_read stdout) ->
                 contains "id name " (strip eline) = false) ->
  GetEngineIdName eng stdout = drop_last 4 eng /\
  (String.length eng <= 4 -> GetEngineIdName eng stdout = "")%nat /\
  (forall base ext,
      eng = base ++ "." ++ ext -> String.length ext = 3%nat ->
      has_char "." ext = false -> has_char "/" ext = false ->
      GetEngineIdName eng stdout = minus_extension eng).
Proof.
  intros H.
  assert (E : GetEngineIdName eng stdout = drop_last 4 eng)
    by (unfold GetEngineIdName; now apply read_id_name_unchanged).
  split; [exact E|]. split.
  - intros Hlen. rewrite E. unfold drop_last.
    replace (String.length eng - 4)%nat with 0%nat by lia.
    now destruct eng.
  - intros base ext -> Hlen Hdot Hslash. rewrite E.
    change (base ++ "." ++ ext) with (base ++ String "." ext).
    rewrite minus_extension_app by assumption.
    apply drop_last_app. cbn. now rewrite Hlen.
Qed.

Lemma GetEngineIdName_fallback_drops_four_witness :
  GetEngineIdName "Brainfish.exe" ["id author T. Romstad" ++ LF; "uciok" ++ LF] =
  "Brainfish".
Proof.
  refine (proj1 (GetEngineIdName_fallback_drops_four
                   "Brainfish.exe" ["id author T. Romstad" ++ LF; "uciok" ++ LF] _)).
  intros eline [<-|[<-|[]]]; reflexivity.
Defined.

(** C7, as stated, fails: a path with no extension loses its last four
    characters, and a path with an extension of two characters loses one
    character of its name. *)
Lemma GetEngineIdName_fallback_is_not_minus_extension :
  GetEngineIdName "stockfish" ["uciok" ++ LF] = "stock" /\
  minus_extension "stockfish" = "stockfish" /\
  GetEngineIdName "engine.py" ["uciok" ++ LF] = "engin" /\
  minus_extension "engine.py" = "engine".
Proof.
  repeat split; reflexivity.
Qed.

End HandshakeTheorems.

(** ** The orchestration of a half-move *)

Section PgnTheorems.

Import Py Engine Analyze Session Pgn.

Variable e : engine.
Variable cfg : config.

Lemma append_assoc (a b c : string) : (a ++ b) ++ c = a ++ b ++ c.
Proof. induction a as [|x a IH]; cbn; [reflexivity|now rewrite IH]. Qed.

Lemma append_empty_r (a : string) : a ++ "" = a.
Proof. induction a as [|x a IH]; cbn; [reflexivity|now rewrite IH]. Qed.

(** The state after a bare move: nothing is sent to the engine, and the
    output grows by the move (with its number for White) and, after Black's
    move, by a line break at each fourth unit written. *)
Lemma WriteSanMove_output (side : bool) (moveNumber : Z) (sanMove : string)
      (st : state) :
  fst (WriteSanMove side moveNumber sanMove st) = Ok tt /\
  requests (snd (WriteSanMove side moveNumber sanMove st)) = requests st /\
  outfile (snd (WriteSanMove side moveNumber sanMove st)) =
  outfile st
    ++ (if side then format_d moveNumber ++ ". " ++ sanMove ++ " "
        else sanMove ++ " ")
    ++ (if negb side && (writeCnt st + 1 >=? 4) then LF else "").
Proof.
  unfold WriteSanMove, bump, wrap, mbind, get, set_writeCnt, fwrite, modify, ret.
  destruct side; cbn.
  - repeat split. now rewrite append_empty_r.
  - destruct (writeCnt st + 1 >=? 4); cbn; repeat split.
    + now rewrite append_assoc.
    + now rewrite append_empty_r.
Qed.

(** Step (0): below the consultation ply and with no book in use, the loop
    body is [WriteSanMove] and nothing else. *)
Lemma annotate_move_without_book (isCereEnd : bool) (hm : halfmove) (st : state) :
  fmvn hm < moveStartOpt cfg -> bookOpt st <> "cerebellum" ->
  annotate_move e cfg isCereEnd hm st =
  (Ok isCereEnd, snd (WriteSanMove (side hm) (fmvn hm) (sanMove hm) st)).
Proof.
  intros Hlt Hbook. unfold annotate_move, mbind at 1, get.
  apply Z.ltb_lt in Hlt. rewrite Hlt.
  rewrite (proj2 (String.eqb_neq _ _) Hbook). cbn [negb andb].
  unfold WriteNotation, mbind.
  destruct (WriteSanMove_output (side hm) (fmvn hm) (sanMove hm) st) as (E & _).
  destruct (WriteSanMove (side hm) (fmvn hm) (sanMove hm) st) as [r st'].
  cbn in E. now subst r.
Qed.

(** With [-eval none] steps (3) to (6) stop at [abs(posScore)]: nothing is
    sent and nothing is written. *)
Lemma evaluate_move_none (hm : halfmove) (cereBookMove : option string)
      (st : state) :
  evalOpt cfg = "none" ->
  evaluate_move e cfg hm cereBookMove st = (Raise TypeError, st).
Proof.
  intros H. unfold evaluate_move. rewrite H. reflexivity.
Qed.

(** The book probe sends one request and writes nothing. *)
Lemma GetCerebellumBookMove_state (pos : string) (st : state) :
  GetCerebellumBookMove e pos st =
  (Ok (if negb (info_depth_seen (go_book e pos))
       then Some (UciToSanMove e pos (book_bestmove (go_book e pos)))
       else None),
   State (bookOpt st) (writeCnt st) (outfile st) (requests st ++ [BookProbe pos])).
Proof.
  unfold GetCerebellumBookMove, send, mbind, modify, ret.
  now destruct (negb (info_depth_seen (go_book e pos))).
Qed.

(** With [-eval none], a half-move that is not written at step (0) or (2)
    raises [TypeError]; by then at most the book was probed, and the output
    is as it was. *)
Lemma annotate_move_none (isCereEnd : bool) (hm : halfmove) (st : state) :
  evalOpt cfg = "none" ->
  short_circuited e cfg st isCereEnd hm = false ->
  exists st',
    annotate_move e cfg isCereEnd hm st = (Raise TypeError, st') /\
    outfile st' = outfile st /\
    no_evaluation_between st st'.
Proof.
  intros Hnone Hsc. unfold short_circuited, book_answers in Hsc.
  unfold annotate_move, mbind at 1, get.
  destruct (fmvn hm <? moveStartOpt cfg) eqn:Hlt;
    destruct (String.eqb (bookOpt st) "cerebellum") eqn:Hbook;
    cbn [negb andb orb] in *; try discriminate.
  - (* below the ply, the book in use and silent or closed *)
    destruct isCereEnd; cbn [negb andb] in *.
    + unfold mbind, ret. rewrite evaluate_move_none by assumption.
      exists st. repeat split. exists []. split; [|reflexivity].
      unfold sent_between. now rewrite app_nil_r.
    + unfold mbind at 1 2. rewrite GetCerebellumBookMove_state. rewrite Hsc.
      unfold ret at 1. unfold mbind, ret.
      rewrite evaluate_move_none by assumption.
      eexists. repeat split. exists [BookProbe (fenBeforeMove hm)].
      split; reflexivity.
  - (* at or above the ply, the book in use *)
    destruct isCereEnd; cbn [negb andb] in *.
    + unfold mbind, ret. rewrite evaluate_move_none by assumption.
      exists st. repeat split. exists []. split; [|reflexivity].
      unfold sent_between. now rewrite app_nil_r.
    + unfold mbind at 1 2. rewrite GetCerebellumBookMove_state.
      destruct (negb (info_depth_seen (go_book e (fenBeforeMove hm))));
        unfold ret at 1; unfold mbind, ret; rewrite ?Hlt;
        rewrite evaluate_move_none by assumption;
        (eexists; repeat split; exists [BookProbe (fenBeforeMove hm)];
         split; reflexivity).
  - (* at or above the ply, no book *)
    unfold mbind, ret. rewrite evaluate_move_none by assumption.
    exists st. repeat split. exists []. split; [|reflexivity].
    unfold sent_between. now rewrite app_nil_r.
Qed.


(** Step (1) and (2) with the book in use and silent: the probe is sent, and
    the half-move goes on to steps (3) to (6). *)
Lemma annotate_move_book_silent (hm : halfmove) (st : state) :
  bookOpt st = "cerebellum" -> book_answers e hm = false ->
  annotate_move e cfg false hm st =
  (evaluate_move e cfg hm None ;;
   ret (if fmvn hm >? BOOK_MOVE_LIMIT then true else false))
    (snd (send (BookProbe (fenBeforeMove hm)) st)).
Proof.
  intros Hbook Hsilent. unfold book_answers in Hsilent.
  unfold annotate_move, mbind at 1, get. rewrite Hbook.
  cbn [String.eqb Ascii.eqb Bool.eqb negb andb]. rewrite andb_false_r.
  unfold mbind at 1 2. rewrite GetCerebellumBookMove_state, Hsilent.
  reflexivity.
Qed.

(** With [-eval none] a half-move that the loop body gets through is below
    the consultation ply. *)
Lemma annotate_move_none_ok (isCereEnd : bool) (hm : halfmove) (st : state)
      (b : bool) :
  evalOpt cfg = "none" ->
  fst (annotate_move e cfg isCereEnd hm st) = Ok b ->
  fmvn hm < moveStartOpt cfg.
Proof.
  intros Hnone Hok.
  destruct (short_circuited e cfg st isCereEnd hm) eqn:Hsc.
  - unfold short_circuited in Hsc. apply andb_prop in Hsc.
    now apply Z.ltb_lt.
  - destruct (annotate_move_none isCereEnd hm st Hnone Hsc) as (st' & E & _).
    rewrite E in Hok. discriminate.
Qed.

Lemma mbind_ok {A B : Type} (m : M A) (k : A -> M B) (st : state) (b : B) :
  fst (mbind m k st) = Ok b ->
  exists a st', m st = (Ok a, st') /\ fst (k a st') = Ok b.
Proof.
  unfold mbind. destruct (m st) as [[a|x] st']; intros H.
  - now exists a, st'.
  - discriminate.
Qed.

Lemma annotate_moves_none_ok (moves : list halfmove) :
  evalOpt cfg = "none" ->
  forall (isCereEnd : bool) (st : state),
    fst (annotate_moves e cfg isCereEnd moves st) = Ok tt ->
    Forall (fun hm => fmvn hm < moveStartOpt cfg) moves.
Proof.
  intros Hnone. induction moves as [|hm rest IH]; intros isCereEnd st Hok;
    [constructor|].
  cbn [annotate_moves] in Hok.
  apply mbind_ok in Hok. destruct Hok as (b & st' & E & Hrest).
  constructor.
  - apply (annotate_move_none_ok isCereEnd hm st b Hnone). now rewrite E.
  - now apply (IH b st').
Qed.

Lemma annotate_games_none_ok (games : list game) :
  evalOpt cfg = "none" ->
  forall st : state,
    fst (annotate_games e cfg games st) = Ok tt ->
    Forall (fun g => Forall (fun hm => fmvn hm < moveStartOpt cfg) (mainline g))
           games.
Proof.
  intros Hnone. induction games as [|g rest IH]; intros st Hok; [constructor|].
  cbn [annotate_games] in Hok.
  apply mbind_ok in Hok. destruct Hok as ([] & st' & E & Hrest).
  constructor; [|now apply (IH st')].
  assert (Hg : fst (annotate_game e cfg g st) = Ok tt) by now rewrite E.
  unfold annotate_game in Hg.
  repeat (apply mbind_ok in Hg; destruct Hg as (? & ? & ? & Hg)).
  match goal with
  | H : annotate_moves e cfg false (mainline g) ?s = (Ok ?u, _) |- _ =>
      apply (annotate_moves_none_ok (mainline g) Hnone false s);
      rewrite H; now destruct u
  end.
Qed.

End PgnTheorems.

Section PgnExamples.

Import Py Engine Analyze Session Pgn Example.

(** C6: the claim fails on the code. White's first move, with the
    consultation ply at 8, the book in use and a probe that returns nothing,
    should be written as the bare move [1. e4 ] with no engine evaluation;
    instead the position after the move is evaluated, the engine's own move
    is searched, and the move is written with its glyph and score. The same
    happens when the book is closed for the game. *)
Lemma annotate_move_book_silent_evaluates :
  fmvn first_move < moveStartOpt static_config /\
  fst (GetCerebellumBookMove engine_out_of_book start_fen with_book) = Ok None /\
  annotate_move engine_out_of_book static_config false first_move with_book =
  (Ok false,
   State "cerebellum" 1 "1. e4 $0 {+0.25} "
         [BookProbe start_fen; StaticEval e4_fen; SearchBeforeMove start_fen]) /\
  annotate_move engine_out_of_book static_config true first_move with_book =
  (Ok true,
   State "cerebellum" 1 "1. e4 $0 {+0.25} "
         [StaticEval e4_fen; SearchBeforeMove start_fen]).
Proof.
  split; [cbn; lia|]. repeat split; vm_compute; reflexivity.
Qed.

End PgnExamples.

(** ** Startup and the evaluation mode *)

Section StartupTheorems.

Import Py Engine Analyze Session Pgn Startup.

(** A [.pgn] file name does not end in [.epd]. *)
Lemma pgn_is_not_epd (fn : string) :
  endswith ".pgn" fn = true -> endswith ".epd" fn = false.
Proof.
  unfold endswith. cbn [String.length]. intros H.
  apply andb_prop in H. destruct H as [H _].
  apply String.eqb_eq in H. rewrite H. reflexivity.
Qed.

(** Startup lets [-eval none] through for a PGN file when the cerebellum
    book is asked for and its file is there. *)
Lemma main_accepts_eval_none (isfile : string -> bool) (o : options) :
  isfile (inputFile o) = true ->
  inputFile o <> outputFile o ->
  isfile (engineName o) = true ->
  endswith ".pgn" (inputFile o) = true ->
  isfile cereBookFile = true ->
  bookOption o = "cerebellum" ->
  evalOption o = "none" ->
  jobOption o = "analyze" ->
  exists o',
    main isfile o = Continue (o', RunAnnotatePgn) /\
    forall e : engine,
      bookOpt (snd (Analyze_init e o')) = "cerebellum" /\
      evalOpt (fst (Analyze_init e o')) = "none".
Proof.
  intros Hin Hne Heng Hpgn Hbook Hb He Hj.
  unfold main, CheckFiles.
  rewrite Hin, Heng, Hpgn, (pgn_is_not_epd _ Hpgn), Hbook, Hb, He, Hj.
  rewrite (proj2 (String.eqb_neq _ _) Hne).
  cbn. eexists. split; [reflexivity|]. intros e. split; reflexivity.
Qed.

(** C9: startup accepts [-eval none] for a PGN file with the cerebellum
    book; with that option every half-move that reaches the evaluation steps
    (it is not written at step (0) or (2)) raises [TypeError] at
    [abs(posScore)], nothing having been written for it and no position
    evaluated; so a run of [AnnotatePgn] that completes has met only
    half-moves below the consultation ply. *)
Theorem AnnotatePgn_eval_none_raises :
  (forall (isfile : string -> bool) (o : options),
      isfile (inputFile o) = true ->
      inputFile o <> outputFile o ->
      isfile (engineName o) = true ->
      endswith ".pgn" (inputFile o) = true ->
      isfile cereBookFile = true ->
      bookOption o = "cerebellum" ->
      evalOption o = "none" ->
      jobOption o = "analyze" ->
      exists o',
        main isfile o = Continue (o', RunAnnotatePgn) /\
        forall e : engine,
          bookOpt (snd (Analyze_init e o')) = "cerebellum" /\
          evalOpt (fst (Analyze_init e o')) = "none") /\
  (forall (e : engine) (cfg : config) (isCereEnd : bool) (hm : halfmove)
          (st : state),
      evalOpt cfg = "none" ->
      short_circuited e cfg st isCereEnd hm = false ->
      exists st',
        annotate_move e cfg isCereEnd hm st = (Raise TypeError, st') /\
        outfile st' = outfile st /\
        no_evaluation_between st st') /\
  (forall (e : engine) (cfg : config) (games : list game) (st : state),
      evalOpt cfg = "none" ->
      fst (AnnotatePgn e cfg games st) = Ok tt ->
      Forall (fun g => Forall (fun hm => fmvn hm < moveStartOpt cfg) (mainline g))
             games).
Proof.
  split; [exact main_accepts_eval_none|]. split.
  - intros e cfg isCereEnd hm st. apply annotate_move_none.
  - intros e cfg games st Hnone Hok. unfold AnnotatePgn in Hok.
    repeat (apply mbind_ok in Hok; destruct Hok as (? & ? & ? & Hok)).
    eapply annotate_games_none_ok; eassumption.
Qed.

Lemma AnnotatePgn_eval_none_raises_witness :
  (exists o',
      main Example.all_files Example.none_options = Continue (o', RunAnnotatePgn) /\
      forall e : engine,
        bookOpt (snd (Analyze_init e o')) = "cerebellum" /\
        evalOpt (fst (Analyze_init e o')) = "none") /\
  (exists st',
      annotate_move Example.engine_in_book Example.none_config false
                    Example.eighth_move Example.with_book =
      (Raise TypeError, st') /\
      outfile st' = outfile Example.with_book /\
      no_evaluation_between Example.with_book st').
Proof.
  split.
  - apply (proj1 AnnotatePgn_eval_none_raises);
      try reflexivity; cbn; discriminate.
  - apply (proj1 (proj2 AnnotatePgn_eval_none_raises)); reflexivity.
Defined.

End StartupTheorems.

(** ** The EPD test suite *)

Section EpdTheorems.

Import Py Engine Analyze Session Epd Further Effects.

Variable e : engine.
Variable cfg : config.
Variable parses : string -> bool.

(** The search loop of [IsCorrectEngineBm] finds the engine's move exactly
    when it equals one of the accepted moves. *)
Lemma IsCorrectEngineBm_existsb (engineBm : string) (epdBm : list string) :
  IsCorrectEngineBm engineBm epdBm = existsb (String.eqb engineBm) epdBm.
Proof.
  induction epdBm as [|ebm rest IH]; cbn; [reflexivity|].
  now destruct (String.eqb engineBm ebm).
Qed.

(** The search of an answered position returns, with one request sent. *)
Lemma GetEpdEngineSearchScore_answered (fen : string) (st : state) :
  answered e fen = true ->
  exists acd acs ce,
    GetEpdEngineSearchScore e cfg fen st =
    (Ok (acd, acs, engine_bm e fen, ce),
     State (bookOpt st) (writeCnt st) (outfile st) (requests st ++ [EpdSearch fen])).
Proof.
  unfold answered. intros H. apply andb_prop in H. destruct H as [Hd Hs].
  unfold GetEpdEngineSearchScore, send, mbind, modify, lift, ret, engine_bm.
  rewrite Hd, Hs. cbn. now eexists _, _, _.
Qed.

Lemma position_of_Ok (lines fen : string) :
  position_of lines = Ok fen ->
  exists hmvc,
    GetHmvcInEpd (split (strip lines)) = Ok hmvc /\
    fen = join " " (firstn 4 (split (strip lines))) ++ " " ++ hmvc ++ " 1".
Proof.
  unfold position_of.
  destruct (GetHmvcInEpd (split (strip lines))) as [hmvc|x]; unfold bind;
    intros H; [|discriminate].
  exists hmvc. split; [reflexivity|congruence].
Qed.

(** One readable line: the counters move on, and the engine is asked when
    the record is tested, and only then. *)
Lemma test_line_state (cnt : counters) (lines : string) (st : state) :
  readable e parses lines ->
  test_line e cfg parses cnt lines st =
  (Ok (step e parses cnt lines),
   if tested e parses lines
   then State (bookOpt st) (writeCnt st) (outfile st)
              (requests st ++ [EpdSearch (fen_of lines)])
   else st).
Proof.
  intros (fen & Hpos & Hparse & Htested).
  unfold step, matched, fen_of. unfold tested in *. rewrite Hpos in Htested |- *.
  apply position_of_Ok in Hpos. destruct Hpos as (hmvc & Hh & Hfen).
  unfold test_line. rewrite Hh. unfold lift at 1, mbind at 1. cbv zeta.
  rewrite <- Hfen. unfold Board. rewrite Hparse in *.
  unfold lift at 1, mbind at 1. cbn [andb] in *.
  destruct (is_game_over e fen); cbn [negb andb] in *.
  - unfold ret. now rewrite !Z.add_0_r.
  - destruct (contains "bm " (strip lines)); cbn [negb].
    + destruct (Htested eq_refl) as ((accepted & Hbm) & Hans).
      rewrite Hbm. unfold lift at 1, mbind at 1.
      destruct (GetEpdEngineSearchScore_answered fen st Hans)
        as (acd & acs & ce & E).
      unfold mbind. rewrite E.
      rewrite IsCorrectEngineBm_existsb.
      cbn [cntEpd cntCorrect cntValidEpd].
      destruct (existsb (String.eqb (engine_bm e fen)) accepted);
        unfold ret; now rewrite ?Z.add_0_r.
    + unfold ret. now rewrite !Z.add_0_r.
Qed.

Lemma count_cons (p : string -> bool) (x : string) (f : list string) :
  count p (x :: f) = (if p x then 1 else 0) + count p f.
Proof.
  unfold count. cbn [filter]. destruct (p x); [|reflexivity].
  cbn [List.length]. lia.
Qed.


(** The loop over a file of readable lines: every line is counted, the
    tested ones as tested, the matched ones as correct; the engine is asked
    once for each tested record, in the order of the file, and nothing is
    written. *)
Lemma test_lines_state (f : list string) :
  Forall (readable e parses) f ->
  forall (cnt : counters) (st : state),
    test_lines e cfg parses cnt f st =
    (Ok (Counters (cntEpd cnt + Z.of_nat (List.length f))
                  (cntCorrect cnt + count (matched e parses) f)
                  (cntValidEpd cnt + count (tested e parses) f)),
     State (bookOpt st) (writeCnt st) (outfile st)
           (requests st ++ map (fun l => EpdSearch (fen_of l))
                               (filter (tested e parses) f))).
Proof.
  induction 1 as [|lines f Hline _ IH]; intros cnt st.
  - cbn. unfold ret. rewrite !Z.add_0_r, app_nil_r. now destruct cnt, st.
  - cbn [test_lines]. unfold mbind. rewrite test_line_state by assumption.
    rewrite IH. rewrite !count_cons. unfold step.
    cbn [cntEpd cntCorrect cntValidEpd List.length filter].
    rewrite Nat2Z.inj_succ.
    destruct (tested e parses lines);
      cbn [bookOpt writeCnt outfile requests map];
      rewrite <- ?app_assoc; cbn [app];
      do 2 f_equal; f_equal; lia.
Qed.











(** After the loop: the seven writes make the summary, with the percentage
    left at [0.0] when no position was tested and computed otherwise. *)
Lemma TestEngineWithEpd_after_loop (f : list string) (st st1 : state)
      (cnt : counters) :
  test_lines e cfg parses (Counters 0 0 0) f st = (Ok cnt, st1) ->
  TestEngineWithEpd e cfg parses f st =
  (Ok tt,
   State (bookOpt st1) (writeCnt st1)
         (outfile st1
            ++ summary_text cfg (cntEpd cnt) (cntValidEpd cnt) (cntCorrect cnt)
                 (format_f false 1
                    (if cntValidEpd cnt =? 0 then 0.0%float
                     else percentage (cntCorrect cnt) (cntValidEpd cnt))))
         (requests st1)).
Proof.
  intros E. unfold TestEngineWithEpd. unfold mbind at 1. rewrite E.
  unfold float_div_int, percentage, summary_text.
  destruct (cntValidEpd cnt =? 0); cbn [negb];
    unfold lift, mbind, ret, fwrite, modify;
    cbn [bookOpt writeCnt outfile requests];
    now rewrite !append_assoc.
Qed.

Lemma TestEngineWithEpd_loop_raises (f : list string) (st st1 : state) (x : exn) :
  test_lines e cfg parses (Counters 0 0 0) f st = (Raise x, st1) ->
  TestEngineWithEpd e cfg parses f st = (Raise x, st1).
Proof.
  intros E. unfold TestEngineWithEpd. unfold mbind at 1. now rewrite E.
Qed.











End EpdTheorems.

Section EpdExamples.

Import Py Engine Analyze Session Epd Example.



(** The report of the example suite, as it is written. *)
Example report_of_suite :
  TestEngineWithEpd engine_e5 test_config six_fields suite without_book =
  (Ok tt,
   State "none" 0
         (":: EPD suite.epd TEST RESULTS ::" ++ LF
          ++ "Engine        : engine" ++ LF
          ++ "Time/pos (sec): 1.0" ++ LF ++ LF
          ++ "Total epd lines       : 4" ++ LF
          ++ "Total tested positions: 2" ++ LF
          ++ "Total correct         : 1" ++ LF
          ++ "Correct percentage    : 50.0" ++ LF)
         [EpdSearch e4_fen; EpdSearch e4_fen]).
Proof. vm_compute. reflexivity. Qed.

(** C8: the claim fails on the code. The loop looks for the text [bm ] in
    the line, not for the opcode. The second record of [sbm_suite] has a
    legal position and no [bm] opcode: it should be skipped, and the run
    should report one tested position, solved, 100.0 per cent. Its [sbm]
    opcode passes the test, the reading of the moves then finds no word
    [bm], and the run stops with [ValueError] before the summary is written.
    A record whose [bm] opcode is followed by a tab is left out of the
    tested positions, although it is valid and the engine solves it. *)
Theorem TestEngineWithEpd_bm_test_is_on_text :
  (has_bm_opcode sbm_record = false /\
   map (valid_record engine_e5 six_fields) sbm_suite = [true; false] /\
   matched engine_e5 six_fields (hd "" sbm_suite) = true /\
   TestEngineWithEpd engine_e5 test_config six_fields sbm_suite without_book =
   (Raise ValueError, State "none" 0 "" [EpdSearch e4_fen])) /\
  (valid_record engine_e5 six_fields tab_record = true /\
   GetEpdBm (split (strip tab_record)) = Ok ["e5"] /\
   engine_bm engine_e5 e4_fen = "e5" /\
   TestEngineWithEpd engine_e5 test_config six_fields [tab_record] without_book =
   (Ok tt, State "none" 0 (summary_text test_config 1 0 0 "0.0") [])).
Proof. repeat split; vm_compute; reflexivity. Qed.

End EpdExamples.

(** * Further properties of the code *)

(** ** Scores *)

Section ScoreProperties.

(** X1: the values of two different nonzero mate distances differ; a mate for
    the side to move in at most 16000 moves has a positive value, a mate
    against it in fewer than 16000 a negative one; and the values of [d] and
    [-d] add up to 1. *)
Theorem MateDistanceToValue_separates :
  (forall d1 d2 : Z,
      d1 <> 0 -> d2 <> 0 ->
      MateDistanceToValue d1 = MateDistanceToValue d2 -> d1 = d2) /\
  (forall d : Z, 0 < d <= 16000 -> 0 < MateDistanceToValue d) /\
  (forall d : Z, -16000 < d < 0 -> MateDistanceToValue d < 0) /\
  (forall d : Z, 0 < d -> MateDistanceToValue d + MateDistanceToValue (- d) = 1).
Proof.
  unfold MateDistanceToValue, MAX_SCORE.
  repeat split; intros;
    repeat match goal with
           | H : context [?a >? ?b] |- _ => rewrite (Z.gtb_ltb a b) in H
           | H : context [?a <? ?b] |- _ => destruct (Z.ltb_spec a b)
           | |- context [?a >? ?b] => rewrite (Z.gtb_ltb a b)
           | |- context [?a <? ?b] => destruct (Z.ltb_spec a b)
           end; lia.
Qed.

Lemma MateDistanceToValue_separates_witness :
  0 < MateDistanceToValue 16000 /\
  MateDistanceToValue (-15999) < 0 /\
  MateDistanceToValue 3 + MateDistanceToValue (- 3) = 1.
Proof.
  split; [apply (proj1 (proj2 MateDistanceToValue_separates)); lia|].
  split; [apply (proj1 (proj2 (proj2 MateDistanceToValue_separates))); lia|].
  apply (proj2 (proj2 (proj2 MateDistanceToValue_separates))); lia.
Defined.

End ScoreProperties.

(** ** Glyphs *)

Section GlyphProperties.

Import Nag PyFloat.
Local Open Scope float_scope.

Ltac by_comparisons :=
  repeat match goal with
         | |- context [PrimFloat.ltb ?a ?b] => destruct (PrimFloat.ltb a b)
         | |- context [PrimFloat.leb ?a ?b] => destruct (PrimFloat.leb a b)
         | |- context [Z.leb ?a ?b] => destruct (Z.leb a b)
         | |- context [Z.geb ?a ?b] => destruct (Z.geb a b)
         end.

(** X2: whatever the scores, [GetBadNag] returns [$0], [$2], [$4], [$5] or
    [$6], never the glyph of a good move ([$1], [$3]). *)
Theorem GetBadNag_glyphs (side : bool) (posScore engScore : float) :
  In (GetBadNag side posScore engScore) ["$0"; "$2"; "$4"; "$5"; "$6"]%string.
Proof.
  unfold GetBadNag, lt, le, gt, ge.
  destruct side; cbn [negb]; by_comparisons; cbn; tauto.
Qed.

(** X3: [GetGoodNag] returns [$0], [$1], [$3] or [$5], never the glyph of a
    bad move; and it returns [$0] whenever the search saw fewer than two PV
    changes or a complexity number below 20, as with the counters left at 0
    by a static evaluation or a short search. *)
Theorem GetGoodNag_glyphs (side : bool) (posScore engScore : float)
        (complexityNumber moveChanges : Z) :
  In (GetGoodNag side posScore engScore complexityNumber moveChanges)
     ["$0"; "$1"; "$3"; "$5"]%string /\
  ((moveChanges < 2 \/ complexityNumber < 20)%Z ->
   GetGoodNag side posScore engScore complexityNumber moveChanges = "$0"%string).
Proof.
  unfold GetGoodNag, lt, le, gt, ge. split.
  - destruct side; cbn [negb]; by_comparisons; cbn; tauto.
  - intros H.
    assert (H4 : (moveChanges >=? 4)%Z && (complexityNumber >=? 45)%Z = false).
    { rewrite !Z.geb_leb. apply andb_false_iff.
      destruct H; [left|right]; apply Z.leb_gt; lia. }
    assert (H3 : (moveChanges >=? 3)%Z && (complexityNumber >=? 30)%Z = false).
    { rewrite !Z.geb_leb. apply andb_false_iff.
      destruct H; [left|right]; apply Z.leb_gt; lia. }
    assert (H2 : (moveChanges >=? 2)%Z && (complexityNumber >=? 20)%Z = false).
    { rewrite !Z.geb_leb. apply andb_false_iff.
      destruct H; [left|right]; apply Z.leb_gt; lia. }
    rewrite H3, H2. rewrite <- (andb_assoc (PrimFloat.ltb _ _)), H4.
    destruct side; cbn [negb andb]; now rewrite ?andb_false_r.
Qed.

Lemma GetGoodNag_glyphs_witness :
  GetGoodNag true 1.0 0.5 0 0 = "$0"%string.
Proof.
  apply (proj2 (GetGoodNag_glyphs true 1.0 0.5 0 0)). left. lia.
Defined.

End GlyphProperties.

(** ** The complexity number, further *)

Section ComplexityProperties.

Import Complexity.

Lemma consecutive_snd (t : list sample) : map snd (consecutive t) = tl t.
Proof.
  induction t as [|a [|b rest] IH]; [reflexivity|reflexivity|].
  change (consecutive (a :: b :: rest)) with ((a, b) :: consecutive (b :: rest)).
  cbn [map snd tl]. now rewrite IH.
Qed.

Lemma deep_pairs_length (l : list (sample * sample)) :
  List.length (filter deep_current l) =
  List.length (filter (fun n => 10 <=? fst n) (map snd l)).
Proof.
  induction l as [|pc l IH]; [reflexivity|].
  cbn [filter map]. unfold deep_current at 1.
  destruct (10 <=? fst (snd pc)); cbn [List.length]; now rewrite IH.
Qed.

Lemma filter_tl_length {A : Type} (p : A -> bool) (l : list A) :
  (List.length (filter p (tl l)) <= List.length (filter p l))%nat.
Proof.
  destruct l as [|a l]; [apply Nat.le_refl|].
  cbn [tl filter]. destruct (p a); cbn [List.length]; lia.
Qed.

Lemma sum_depths_deep (l : list (sample * sample)) :
  Forall (fun pc => deep_current pc = true) l ->
  10 * Z.of_nat (List.length l) <= sum_depths l.
Proof.
  induction 1 as [|pc l Hpc _ IH]; [cbn; lia|].
  change (sum_depths (pc :: l)) with (fst (snd pc) + sum_depths l).
  cbn [List.length]. unfold deep_current in Hpc. apply Z.leb_le in Hpc.
  rewrite Nat2Z.inj_succ. lia.
Qed.

(** A trace the scan gets through starts below depth 10. *)
Lemma GetComplexityNumber_Ok_starts_shallow (t : list sample) (r : Z * Z) :
  GetComplexityNumber t = Ok r -> starts_shallow t = true.
Proof.
  destruct t as [|n rest]; [reflexivity|].
  cbn [starts_shallow]. intros H.
  destruct (fst n <? 10) eqn:Hn; [reflexivity|].
  apply Z.ltb_ge in Hn. unfold GetComplexityNumber in H.
  rewrite scan_unbound in H by assumption. discriminate.
Qed.

(** X4: when [GetComplexityNumber] returns [(complexityNumber, moveChanges)],
    the number of changes is at most the number of samples of depth 10 or
    more, and the complexity number is at least ten times the number of
    changes. *)
Theorem GetComplexityNumber_bounds (t : list sample) (c m : Z) :
  GetComplexityNumber t = Ok (c, m) ->
  0 <= m <= Z.of_nat (List.length (discard_shallow t)) /\ 10 * m <= c.
Proof.
  intros H.
  rewrite (GetComplexityNumber_starts_shallow t) in H
    by (eapply GetComplexityNumber_Ok_starts_shallow; eassumption).
  unfold complexity_of_trace, tally in H. injection H as <- <-.
  set (pairs := filter deep_current (consecutive t)).
  assert (Hlen : (List.length (filter differs pairs) <= List.length pairs)%nat)
    by apply filter_length_le.
  assert (Hdeep : (List.length pairs <= List.length (discard_shallow t))%nat).
  { unfold pairs, discard_shallow.
    rewrite deep_pairs_length, consecutive_snd. apply filter_tl_length. }
  split; [lia|].
  apply sum_depths_deep. apply Forall_forall. intros pc Hin.
  apply filter_In in Hin. destruct Hin as [Hin _].
  unfold pairs in Hin. apply filter_In in Hin. now destruct Hin.
Qed.

Lemma GetComplexityNumber_bounds_witness :
  0 <= 2 <= Z.of_nat (List.length (discard_shallow
                                     [(9, "e2e4"); (10, "d2d4"); (11, "d2d4");
                                      (12, "g1f3")]%string)) /\
  10 * 2 <= 22.
Proof.
  apply (GetComplexityNumber_bounds
           [(9, "e2e4"); (10, "d2d4"); (11, "d2d4"); (12, "g1f3")]%string 22 2).
  reflexivity.
Defined.

Lemma no_deep_pairs (t : list sample) :
  Forall (fun n => fst n < 10) t -> filter deep_current (consecutive t) = [].
Proof.
  induction 1 as [|a t Ha Ht IH]; [reflexivity|].
  destruct t as [|b rest]; [reflexivity|].
  change (consecutive (a :: b :: rest)) with ((a, b) :: consecutive (b :: rest)).
  cbn [filter]. unfold deep_current at 1. cbn [snd].
  inversion Ht as [|? ? Hb _]; subst.
  apply Z.leb_gt in Hb. now rewrite Hb.
Qed.

(** X5: on a trace with no sample of depth 10 or more (the empty trace
    too), [GetComplexityNumber] returns [(0, 0)]. *)
Theorem GetComplexityNumber_all_shallow (t : list sample) :
  Forall (fun n => fst n < 10) t -> GetComplexityNumber t = Ok (0, 0).
Proof.
  intros H. rewrite GetComplexityNumber_starts_shallow.
  - unfold complexity_of_trace. now rewrite no_deep_pairs.
  - destruct H as [|n rest Hn _]; [reflexivity|]. now apply Z.ltb_lt.
Qed.

Lemma GetComplexityNumber_all_shallow_witness :
  GetComplexityNumber [(1, "e2e4"); (2, "d2d4"); (9, "e2e4")]%string = Ok (0, 0).
Proof.
  apply GetComplexityNumber_all_shallow.
  repeat (apply Forall_cons; [cbn; lia|]). apply Forall_nil.
Defined.

Lemma no_differing_pairs (mv : string) (t : list sample) :
  Forall (fun n => snd n = mv) t -> filter differs (consecutive t) = [].
Proof.
  induction 1 as [|a t Ha Ht IH]; [reflexivity|].
  destruct t as [|b rest]; [reflexivity|].
  change (consecutive (a :: b :: rest)) with ((a, b) :: consecutive (b :: rest)).
  cbn [filter]. unfold differs at 1.
  inversion Ht as [|? ? Hb _]; subst.
  rewrite Hb, String.eqb_refl. exact IH.
Qed.

Lemma filter_comm {A : Type} (p q : A -> bool) (l : list A) :
  filter p (filter q l) = filter q (filter p l).
Proof.
  induction l as [|a l IH]; [reflexivity|]. cbn [filter].
  destruct (p a) eqn:Hp; destruct (q a) eqn:Hq; cbn [filter];
    rewrite ?Hp, ?Hq, IH; reflexivity.
Qed.

(** X6: when the principal variation starts with the same move at every
    depth, [GetComplexityNumber] returns [(0, 0)], however deep the search
    went (the first sample being below depth 10). *)
Theorem GetComplexityNumber_steady_pv (mv : string) (t : list sample) :
  starts_shallow t = true ->
  Forall (fun n => snd n = mv) t ->
  GetComplexityNumber t = Ok (0, 0).
Proof.
  intros Hs Hmv. rewrite GetComplexityNumber_starts_shallow by assumption.
  unfold complexity_of_trace, tally.
  now rewrite filter_comm, (no_differing_pairs mv).
Qed.

Lemma GetComplexityNumber_steady_pv_witness :
  GetComplexityNumber [(1, "e2e4"); (10, "e2e4"); (25, "e2e4")]%string = Ok (0, 0).
Proof.
  apply (GetComplexityNumber_steady_pv "e2e4"); [reflexivity|].
  repeat (apply Forall_cons; [reflexivity|]). apply Forall_nil.
Defined.

End ComplexityProperties.

(** ** The handshake, further *)

Section HandshakeProperties.

Import Py Handshake.

(** Lines that neither end the stream nor show [uciok] are read through. *)
Lemma read_id_name_through (pre rest : list string) :
  Forall (fun l => l <> "" /\ contains "uciok" (strip l) = false) pre ->
  forall name, exists name', read_id_name name (pre ++ rest) = read_id_name name' rest.
Proof.
  induction 1 as [|l pre [Hne Hok] _ IH]; intros name; [now exists name|].
  cbn [app read_id_name].
  rewrite (proj2 (String.eqb_neq _ _) Hne), Hok. apply IH.
Qed.

(** X7: the engine's name is taken from the last line with [id name] read
    before [uciok]: it is the words of that line after the first two, joined
    by single spaces. *)
Theorem GetEngineIdName_last_id_name (eng : string) (pre rest : list string)
        (eline : string) :
  Forall (fun l => l <> "" /\ contains "uciok" (strip l) = false) pre ->
  eline <> "" ->
  contains "id name " (strip eline) = true ->
  (forall l, In l (lines_read rest) -> contains "id name " (strip l) = false) ->
  GetEngineIdName eng (pre ++ eline :: rest) =
  join " " (skipn 2 (split (strip eline))).
Proof.
  intros Hpre Hne Hid Hrest. unfold GetEngineIdName.
  destruct (read_id_name_through pre (eline :: rest) Hpre (drop_last 4 eng))
    as (name & ->).
  cbn [read_id_name]. rewrite (proj2 (String.eqb_neq _ _) Hne), Hid.
  destruct (contains "uciok" (strip eline)); [reflexivity|].
  now apply read_id_name_unchanged.
Qed.

Lemma GetEngineIdName_last_id_name_witness :
  GetEngineIdName "sf.exe"
    (["Stockfish 8 64 by T. Romstad" ++ LF]
       ++ ("id name  Stockfish   8 64" ++ LF)
       :: ["id author T. Romstad" ++ LF; "uciok" ++ LF; "id name late" ++ LF]) =
  "Stockfish 8 64".
Proof.
  refine (GetEngineIdName_last_id_name
            "sf.exe" ["Stockfish 8 64 by T. Romstad" ++ LF] _ _ _ _ _ _).
  - apply Forall_cons; [split; [discriminate|reflexivity]|apply Forall_nil].
  - discriminate.
  - reflexivity.
  - intros l [<-|[<-|[]]]; reflexivity.
Defined.

(** X8: nothing after the first line with [uciok] is read: the lines that
    follow it do not change the name. *)
Theorem GetEngineIdName_stops_at_uciok (eng : string) (pre rest : list string)
        (eline : string) :
  contains "uciok" (strip eline) = true ->
  GetEngineIdName eng (pre ++ eline :: rest) = GetEngineIdName eng (pre ++ [eline]).
Proof.
  intros Hok. unfold GetEngineIdName. generalize (drop_last 4 eng).
  induction pre as [|l pre IH]; intros name.
  - cbn [app read_id_name]. rewrite Hok.
    now destruct (String.eqb eline "").
  - cbn [app read_id_name].
    destruct (String.eqb l ""); [reflexivity|].
    destruct (contains "uciok" (strip l)); [reflexivity|]. apply IH.
Qed.

Lemma GetEngineIdName_stops_at_uciok_witness :
  GetEngineIdName "sf.exe" (["id name A" ++ LF] ++ ("uciok" ++ LF) :: ["id name B" ++ LF]) =
  GetEngineIdName "sf.exe" (["id name A" ++ LF] ++ ["uciok" ++ LF]).
Proof.
  apply GetEngineIdName_stops_at_uciok. reflexivity.
Defined.

End HandshakeProperties.

(** ** The operations of an EPD record *)

Section EpdRecordProperties.

Import Py Handshake Epd Further.

Lemma index_absent (x : string) (l : list string) :
  mem x l = false -> index x l = Raise ValueError.
Proof.
  unfold mem. induction l as [|y l IH]; [reflexivity|].
  cbn [existsb index]. rewrite (String.eqb_sym y x).
  destruct (String.eqb x y); [discriminate|].
  cbn [orb]. intros H. now rewrite (IH H).
Qed.

Lemma index_present (x : string) (l : list string) :
  mem x l = true -> exists i, index x l = Ok i.
Proof.
  unfold mem. induction l as [|y l IH]; [discriminate|].
  cbn [existsb index]. rewrite (String.eqb_sym y x).
  destruct (String.eqb x y); [now exists O|].
  cbn [orb]. intros H. destruct (IH H) as (i & ->). now exists (S i).
Qed.

(** The first occurrence of [x] after a prefix without it. *)
Lemma index_app (x : string) (pre post : list string) :
  mem x pre = false -> index x (pre ++ x :: post) = Ok (List.length pre).
Proof.
  unfold mem. induction pre as [|y pre IH]; cbn [app existsb index List.length].
  - now rewrite String.eqb_refl.
  - rewrite (String.eqb_sym y x). destruct (String.eqb x y); [discriminate|].
    cbn [orb]. intros H. now rewrite (IH H).
Qed.

(** Words joined by single spaces split into the same words. *)
Lemma split_from_word (w : string) :
  no_space w = true ->
  forall acc s, split_from acc (w ++ s) = split_from (acc ++ w) s.
Proof.
  induction w as [|c w IH]; intros Hw acc s.
  - now rewrite append_empty_r.
  - cbn [no_space] in Hw. apply andb_prop in Hw. destruct Hw as [Hc Hw].
    apply negb_true_iff in Hc.
    cbn [append split_from]. rewrite Hc, IH by assumption.
    unfold snoc. now rewrite append_assoc.
Qed.

Lemma join_cons (x y : string) (l : list string) :
  join " " (x :: y :: l) = x ++ " " ++ join " " (y :: l).
Proof. reflexivity. Qed.

Lemma split_join (ws : list string) :
  Forall (fun w => w <> "" /\ no_space w = true) ws -> split (join " " ws) = ws.
Proof.
  unfold split. induction 1 as [|x l [Hx Hs] Hl IH]; [reflexivity|].
  destruct l as [|y l].
  - cbn [join String.concat].
    rewrite <- (append_empty_r x) at 1. rewrite split_from_word by assumption.
    cbn [append split_from]. destruct x; [contradiction|reflexivity].
  - rewrite join_cons, split_from_word by assumption.
    change ("" ++ x) with x.
    change (" " ++ join " " (y :: l)) with (String " " (join " " (y :: l))).
    cbn [split_from]. change (is_space " ") with true. cbv iota.
    rewrite IH. destruct x; [contradiction|reflexivity].
Qed.

Lemma has_char_join (c : ascii) (ws : list string) :
  Ascii.eqb c " " = false ->
  Forall (fun w => has_char c w = false) ws -> has_char c (join " " ws) = false.
Proof.
  intros Hc. induction 1 as [|x l Hx Hl IH]; [reflexivity|].
  destruct l as [|y l]; [exact Hx|].
  rewrite join_cons, !has_char_app, Hx, IH. cbn [has_char].
  now rewrite Hc.
Qed.

(** The [bm] operation written out: the moves, the semicolon, the rest. *)
Lemma join_operation (moves : list string) (last : string) (rest : list string) :
  join " " (moves ++ (last ++ ";")%string :: rest)%list =
  join " " (moves ++ [last])%list ++ String ";" (continued rest).
Proof.
  induction moves as [|m ms IH].
  - cbn [app]. destruct rest as [|r rest].
    + reflexivity.
    + rewrite join_cons. change (join " " [last]) with last.
      unfold continued. now rewrite append_assoc.
  - cbn [app].
    assert (H : forall (x : string) (l : list string),
               l <> [] -> join " " (x :: l) = x ++ " " ++ join " " l)
      by (intros x [|y l] Hl; [contradiction|reflexivity]).
    rewrite !H by (now destruct ms).
    rewrite IH. now rewrite !append_assoc.
Qed.

Lemma rstrip_app (a : string) (c : ascii) (t : string) :
  is_space c = false -> rstrip (a ++ String c t) = a ++ String c (rstrip t).
Proof.
  intros Hc. induction a as [|x a IH]; cbn [append rstrip].
  - rewrite Hc. now destruct (rstrip t).
  - rewrite IH. now destruct a.
Qed.

Lemma split_at_from_app (sep : ascii) (a t : string) :
  has_char sep a = false ->
  forall word,
    split_at_from sep word (a ++ String sep t) =
    (word ++ a) :: split_at_from sep "" t.
Proof.
  induction a as [|c a IH]; intros Ha word.
  - cbn [append split_at_from]. now rewrite Ascii.eqb_refl, append_empty_r.
  - cbn [has_char] in Ha. apply orb_false_iff in Ha. destruct Ha as [Hc Ha].
    cbn [append split_at_from]. rewrite Ascii.eqb_sym, Hc, IH by assumption.
    unfold snoc. now rewrite append_assoc.
Qed.

Lemma join_head (x : string) (l : list string) :
  join " " (x :: l) = x ++ continued l.
Proof. destruct l; [cbn; now rewrite append_empty_r|reflexivity]. Qed.

Lemma lstrip_join (x : string) (l : list string) (s : string) :
  x <> "" -> no_space x = true ->
  lstrip (join " " (x :: l) ++ s) = join " " (x :: l) ++ s.
Proof.
  intros Hx Hs. rewrite join_head, append_assoc.
  destruct x as [|c x]; [contradiction|].
  cbn [no_space] in Hs. apply andb_prop in Hs. destruct Hs as [Hc _].
  apply negb_true_iff in Hc. cbn [append lstrip]. now rewrite Hc.
Qed.

(** X9: [GetEpdBm] raises [ValueError] when no word of the line is [bm].
    For a line whose first [bm] is followed by moves (words without a
    semicolon), the last of them ended by a semicolon, it returns exactly
    those moves, in order, whatever comes after the semicolon. *)
Theorem GetEpdBm_accepted (pre moves rest : list string) (last : string) :
  (forall epdLineList,
      mem "bm" epdLineList = false -> GetEpdBm epdLineList = Raise ValueError) /\
  (mem "bm" pre = false ->
   Forall move_word (moves ++ [last])%list ->
   GetEpdBm (pre ++ "bm" :: moves ++ (last ++ ";")%string :: rest)%list =
   Ok (moves ++ [last])%list).
Proof.
  split.
  - intros l H. unfold GetEpdBm. now rewrite (index_absent _ _ H).
  - intros Hpre Hmoves. unfold GetEpdBm.
    rewrite index_app by assumption. cbn [bind].
    replace (skipn (List.length pre + 1)
                   (pre ++ "bm" :: moves ++ (last ++ ";")%string :: rest)%list)
      with (moves ++ (last ++ ";")%string :: rest)%list.
    2:{ clear. induction pre as [|p pre IH]; [reflexivity|exact IH]. }
    rewrite join_operation.
    assert (Hw : Forall (fun w => w <> "" /\ no_space w = true)
                        (moves ++ [last])%list).
    { eapply Forall_impl; [|exact Hmoves]. intros w (H1 & H2 & _). now split. }
    assert (Hsemi : has_char ";" (join " " (moves ++ [last])%list) = false).
    { apply has_char_join; [reflexivity|].
      eapply Forall_impl; [|exact Hmoves]. now intros w (_ & _ & H). }
    destruct (moves ++ [last])%list as [|x l] eqn:Hml;
      [destruct moves; discriminate|].
    assert (Hx : x <> "" /\ no_space x = true) by (now inversion Hw).
    destruct Hx as [Hx1 Hx2].
    unfold strip. rewrite lstrip_join, rstrip_app by (assumption || reflexivity).
    unfold split_at. rewrite split_at_from_app by assumption.
    cbn [item nth_error bind append].
    now rewrite split_join.
Qed.

Lemma GetEpdBm_accepted_witness :
  GetEpdBm (["8/8/8/8/8/8/8/K6k"; "w"; "-"; "-"]
              ++ "bm" :: ["e4"] ++ ("Nf3" ++ ";")%string :: ["id"; "x;"])%list =
  Ok (["e4"] ++ ["Nf3"])%list.
Proof.
  refine (proj2 (GetEpdBm_accepted ["8/8/8/8/8/8/8/K6k"; "w"; "-"; "-"]
                                   ["e4"] ["id"; "x;"] "Nf3") _ _).
  - reflexivity.
  - repeat constructor; discriminate.
Defined.

(** X10: [GetHmvcInEpd] gives ["0"] for a line with no [hmvc] word; it takes
    the word after the first [hmvc] less its last character, whatever that
    character is; and its only failure is [IndexError], when [hmvc] is the
    last word. *)
Theorem GetHmvcInEpd_value (epdLine : list string) :
  (mem "hmvc" epdLine = false -> GetHmvcInEpd epdLine = Ok "0") /\
  (forall (pre : list string) (value : string) (post : list string),
      epdLine = (pre ++ "hmvc" :: value :: post)%list -> mem "hmvc" pre = false ->
      GetHmvcInEpd epdLine = Ok (drop_last 1 value)) /\
  (forall pre : list string,
      epdLine = (pre ++ ["hmvc"])%list -> mem "hmvc" pre = false ->
      GetHmvcInEpd epdLine = Raise IndexError) /\
  (forall ex, GetHmvcInEpd epdLine = Raise ex -> ex = IndexError).
Proof.
  unfold GetHmvcInEpd. repeat split.
  - intros H. now rewrite H.
  - intros pre value post -> Hpre.
    replace (mem "hmvc" (pre ++ "hmvc" :: value :: post)%list) with true
      by (unfold mem; rewrite existsb_app; cbn; now rewrite orb_true_r).
    cbn [negb]. rewrite index_app by assumption. cbn [bind]. unfold item.
    rewrite nth_error_app2 by lia.
    replace (List.length pre + 1 - List.length pre)%nat with 1%nat by lia.
    reflexivity.
  - intros pre -> Hpre.
    replace (mem "hmvc" (pre ++ ["hmvc"])%list) with true
      by (unfold mem; rewrite existsb_app; cbn; now rewrite orb_true_r).
    cbn [negb]. rewrite index_app by assumption. cbn [bind]. unfold item.
    rewrite nth_error_app2 by lia.
    replace (List.length pre + 1 - List.length pre)%nat with 1%nat by lia.
    reflexivity.
  - intros ex. destruct (mem "hmvc" epdLine) eqn:Hm; cbn [negb]; [|discriminate].
    destruct (index_present _ _ Hm) as (i & ->). cbn [bind].
    destruct (item epdLine (i + 1)) eqn:Hi; cbn [bind]; [discriminate|].
    intros [= <-]. unfold item in Hi.
    destruct (nth_error epdLine (i + 1)); congruence.
Qed.

Lemma GetHmvcInEpd_value_witness :
  GetHmvcInEpd (["8/8/8/8/8/8/8/K6k"; "w"; "-"; "-"] ++ "hmvc" :: "12;" :: ["bm"; "Kb1;"])%list =
  Ok "12" /\
  GetHmvcInEpd (["8/8/8/8/8/8/8/K6k"; "w"; "-"; "-"] ++ "hmvc" :: "12" :: [])%list =
  Ok "1" /\
  GetHmvcInEpd (["8/8/8/8/8/8/8/K6k"; "w"; "-"; "-"] ++ ["hmvc"])%list = Raise IndexError.
Proof.
  split; [|split].
  - apply (proj1 (proj2 (GetHmvcInEpd_value _))
             ["8/8/8/8/8/8/8/K6k"; "w"; "-"; "-"] "12;" ["bm"; "Kb1;"]);
      reflexivity.
  - apply (proj1 (proj2 (GetHmvcInEpd_value _))
             ["8/8/8/8/8/8/8/K6k"; "w"; "-"; "-"] "12" []);
      reflexivity.
  - apply (proj1 (proj2 (proj2 (GetHmvcInEpd_value _)))
             ["8/8/8/8/8/8/8/K6k"; "w"; "-"; "-"]);
      reflexivity.
Defined.

End EpdRecordProperties.

(** ** The run of the test suite, further *)

Section EpdRunProperties.

Import Py Engine Analyze Session Epd Further.

Variable e : engine.
Variable cfg : config.
Variable parses : string -> bool.

(** X11: over a file of readable lines (python-chess takes the FEN of each,
    and the engine answers for each tested record), [TestEngineWithEpd]
    asks the engine for one search per tested record, in the order of the
    file, and for nothing else: no request is made for a skipped record. *)
Theorem TestEngineWithEpd_requests (f : list string) (st : state) :
  Forall (readable e parses) f ->
  requests (snd (TestEngineWithEpd e cfg parses f st)) =
  (requests st ++ map (fun l => EpdSearch (fen_of l))
                      (filter (tested e parses) f))%list.
Proof.
  intros Hf.
  rewrite (TestEngineWithEpd_after_loop e cfg parses f st _ _
             (test_lines_state e cfg parses f Hf (Counters 0 0 0) st)).
  reflexivity.
Qed.

(** A line with the letters [bm ] but no word [bm] stops the run. *)
Lemma test_line_no_bm_word (cnt : counters) (lines fen : string) (st : state) :
  position_of lines = Ok fen ->
  is_game_over e fen = false ->
  contains "bm " (strip lines) = true ->
  mem "bm" (split (strip lines)) = false ->
  test_line e cfg parses cnt lines st = (Raise ValueError, st).
Proof.
  intros Hpos Hover Hbm Hword.
  apply position_of_Ok in Hpos. destruct Hpos as (hmvc & Hh & Hfen).
  unfold test_line. rewrite Hh. unfold lift at 1, mbind at 1. cbv zeta.
  rewrite <- Hfen. unfold Board, lift at 1, mbind at 1.
  destruct (parses fen); [|reflexivity].
  rewrite Hover, Hbm. cbn [negb].
  unfold GetEpdBm. rewrite (index_absent _ _ Hword). reflexivity.
Qed.

(** A line python-chess does not take stops the run. *)
Lemma test_line_rejected (cnt : counters) (lines : string) (st : state) :
  rejected parses lines ->
  test_line e cfg parses cnt lines st = (Raise ValueError, st).
Proof.
  intros (fen & Hpos & Hparse).
  apply position_of_Ok in Hpos. destruct Hpos as (hmvc & Hh & Hfen).
  unfold test_line. rewrite Hh. unfold lift at 1, mbind at 1. cbv zeta.
  rewrite <- Hfen. unfold Board, lift at 1, mbind at 1. now rewrite Hparse.
Qed.

(** X12: the test for a [bm] operation looks for the letters [bm ] anywhere
    in the line, the reading of the moves for the word [bm]: a record with a
    legal position that has the letters and not the word stops the run with
    [ValueError], and the summary is not written, whatever the records
    before it scored (and also when the run stops earlier, at a line
    python-chess does not take). *)
Theorem TestEngineWithEpd_no_bm_word (pre rest : list string)
        (lines fen : string) (st : state) :
  Forall (fun l => readable e parses l \/ rejected parses l) pre ->
  position_of lines = Ok fen ->
  is_game_over e fen = false ->
  contains "bm " (strip lines) = true ->
  mem "bm" (split (strip lines)) = false ->
  fst (TestEngineWithEpd e cfg parses (pre ++ lines :: rest) st) = Raise ValueError /\
  outfile (snd (TestEngineWithEpd e cfg parses (pre ++ lines :: rest) st)) = outfile st.
Proof.
  intros Hpre Hpos Hover Hbm Hword.
  assert (H : forall cnt st0,
             fst (test_lines e cfg parses cnt (pre ++ lines :: rest) st0)
             = Raise ValueError /\
             outfile (snd (test_lines e cfg parses cnt (pre ++ lines :: rest) st0)) =
             outfile st0).
  { induction Hpre as [|l pre Hl _ IH]; intros cnt st0.
    - cbn [app test_lines]. unfold mbind.
      rewrite (test_line_no_bm_word cnt lines fen st0) by assumption.
      split; reflexivity.
    - cbn [app test_lines]. unfold mbind. destruct Hl as [Hl|Hl].
      + rewrite test_line_state by assumption.
        destruct (tested e parses l);
          match goal with |- context [test_lines e cfg parses ?c _ ?s] =>
            destruct (IH c s) as (E & O) end;
          split; assumption.
      + rewrite test_line_rejected by assumption. split; reflexivity. }
  destruct (H (Counters 0 0 0) st) as (E & O).
  destruct (test_lines e cfg parses (Counters 0 0 0) (pre ++ lines :: rest) st)
    as [r st1] eqn:T.
  cbn [fst snd] in E, O. subst r.
  rewrite (TestEngineWithEpd_loop_raises e cfg parses _ st st1 ValueError T).
  split; [reflexivity|exact O].
Qed.



End EpdRunProperties.

Section EpdRunExamples.

Import Py Engine Analyze Session Epd Further Example.

Ltac readable_line :=
  eexists; split; [vm_compute; reflexivity|];
  split; [vm_compute; reflexivity|];
  let H := fresh in
  intros H;
  first [ vm_compute in H; discriminate H
        | split; [eexists; vm_compute; reflexivity|vm_compute; reflexivity] ].

Lemma TestEngineWithEpd_requests_witness :
  requests (snd (TestEngineWithEpd engine_e5 test_config six_fields suite without_book)) =
  ([] ++ [EpdSearch e4_fen; EpdSearch e4_fen])%list.
Proof.
  refine (TestEngineWithEpd_requests engine_e5 test_config six_fields suite
            without_book _).
  repeat (apply Forall_cons; [readable_line|]). apply Forall_nil.
Defined.

Lemma TestEngineWithEpd_no_bm_word_witness :
  fst (TestEngineWithEpd engine_e5 test_config six_fields
         (firstn 2 suite ++ ("8/8/8/8/8/8/8/K6k w - - sbm Kb1;" ++ LF) :: skipn 2 suite)
         without_book) = Raise ValueError /\
  outfile (snd (TestEngineWithEpd engine_e5 test_config six_fields
                  (firstn 2 suite
                     ++ ("8/8/8/8/8/8/8/K6k w - - sbm Kb1;" ++ LF) :: skipn 2 suite)
                  without_book)) = outfile without_book.
Proof.
  refine (TestEngineWithEpd_no_bm_word
            engine_e5 test_config six_fields (firstn 2 suite) (skipn 2 suite)
            ("8/8/8/8/8/8/8/K6k w - - sbm Kb1;" ++ LF) "8/8/8/8/8/8/8/K6k w - - 0 1"
            without_book _ _ _ _ _); try reflexivity.
  repeat (apply Forall_cons; [left; readable_line|]). apply Forall_nil.
Defined.


End EpdRunExamples.

(** ** The command line and startup *)

Section CommandLineProperties.

Import Py Startup CommandLine.

Lemma pair_induction (P : list string -> Prop) :
  P [] -> (forall a, P [a]) ->
  (forall a b rest, P rest -> P (a :: b :: rest)) ->
  forall l, P l.
Proof.
  intros H0 H1 H2 l.
  assert (H : P l /\ forall a, P (a :: l)).
  { induction l as [|b l [IH IH']]; [now split|].
    split; [apply IH'|]. intros a. now apply H2. }
  apply H.
Qed.

Lemma dict_get_set (k k' v : string) (d : dict) :
  dict_get k (dict_set k' v d) =
  if String.eqb k' k then Some v else dict_get k d.
Proof.
  induction d as [|[k0 v0] d IH]; cbn [dict_set dict_get]; [reflexivity|].
  destruct (String.eqb k0 k') eqn:E0; cbn [dict_get].
  - apply String.eqb_eq in E0. subst k0.
    now destruct (String.eqb k' k).
  - destruct (String.eqb k0 k) eqn:E1; [|exact IH].
    apply String.eqb_eq in E1. subst k0. now rewrite String.eqb_sym, E0.
Qed.

Lemma dict_get_pairs (k : string) (argv : list string) :
  forall d : dict,
    dict_get k (fold_left (fun d kv => dict_set (fst kv) (snd kv) d)
                          (combine (evens argv) (odds argv)) d) =
    match last_value k argv with
    | Some v => Some v
    | None => dict_get k d
    end.
Proof.
  induction argv as [|a|a b rest IH] using pair_induction; intros d;
    [reflexivity|reflexivity|].
  cbn [evens odds combine fold_left fst snd last_value].
  rewrite IH, dict_get_set.
  destruct (last_value k rest); [reflexivity|].
  now destruct (String.eqb a k).
Qed.

Lemma dict_get_EvaluateOptions (argv : list string) (k : string) :
  dict_get k (EvaluateOptions argv) = last_value k argv.
Proof.
  unfold EvaluateOptions, dict_of. rewrite dict_get_pairs.
  now destruct (last_value k argv).
Qed.

(** X13: in the dictionary [EvaluateOptions] builds, an option has the last
    value the command line pairs with it, and no value when no pair names
    it; an argument left without a partner at the end is dropped. *)
Theorem EvaluateOptions_last_value (argv : list string) (k : string) :
  dict_get k (EvaluateOptions argv) = last_value k argv /\
  (Nat.even (List.length argv) = true ->
   forall x, EvaluateOptions (argv ++ [x]) = EvaluateOptions argv).
Proof.
  split; [apply dict_get_EvaluateOptions|].
  unfold EvaluateOptions. intros Heven x. f_equal. revert Heven.
  induction argv as [|a|a b rest IH] using pair_induction;
    [reflexivity|discriminate|].
  intros Heven. cbn [app evens odds combine List.length Nat.even] in *.
  now rewrite IH.
Qed.

Lemma EvaluateOptions_last_value_witness :
  EvaluateOptions (["-eval"; "static"; "-eval"; "search"] ++ ["-job"]) =
  EvaluateOptions ["-eval"; "static"; "-eval"; "search"].
Proof.
  apply (proj2 (EvaluateOptions_last_value
                  ["-eval"; "static"; "-eval"; "search"] "-eval")).
  reflexivity.
Defined.

Section WithInt.

Variable py_int : string -> result Z.

(** Is the option one of the four that are converted with [int]? *)
Lemma GetOptionValue_numeric (opt : dict) (optName : string) (default : Z) :
  In optName ["-movetime"; "-enghash"; "-engthreads"; "-movestart"] ->
  GetOptionValue py_int opt optName (Int default) =
  do n <- numeric py_int opt optName default; Ok (Int n).
Proof.
  unfold GetOptionValue, numeric.
  intros [<-|[<-|[<-|[<-|[]]]]]; now destruct (dict_get _ opt).
Qed.

Lemma GetOptionValue_textual (opt : dict) (optName default : string) :
  In optName ["-infile"; "-outfile"; "-eng"; "-book"; "-eval"; "-job"] ->
  GetOptionValue py_int opt optName (Str default) =
  Ok (Str (textual opt optName default)).
Proof.
  unfold GetOptionValue, textual.
  intros [<-|[<-|[<-|[<-|[<-|[<-|[]]]]]]]; now destruct (dict_get _ opt).
Qed.

Lemma dict_get_empty (k : string) (d : dict) :
  List.length d = 0%nat -> dict_get k d = None.
Proof. destruct d; [reflexivity|discriminate]. Qed.

(** The options read, in one expression. *)
Lemma read_options_eq (argv : list string) :
  read_options py_int argv =
  do moveTime <- numeric py_int (EvaluateOptions argv) "-movetime" 0;
  do engHash <- numeric py_int (EvaluateOptions argv) "-enghash" 32;
  do engThreads <- numeric py_int (EvaluateOptions argv) "-engthreads" 1;
  do moveStart <- numeric py_int (EvaluateOptions argv) "-movestart" 8;
  Ok (Options (textual (EvaluateOptions argv) "-infile" "src.pgn")
              (textual (EvaluateOptions argv) "-outfile" "out_src.pgn")
              (textual (EvaluateOptions argv) "-eng" "engine.exe")
              (textual (EvaluateOptions argv) "-book" "none")
              (textual (EvaluateOptions argv) "-eval" "static")
              moveTime engHash engThreads moveStart
              (textual (EvaluateOptions argv) "-job" "analyze")).
Proof.
  unfold read_options. cbv zeta. set (d := EvaluateOptions argv).
  destruct (Nat.eqb (List.length d) 0) eqn:Hlen; cbn [negb].
  - apply Nat.eqb_eq in Hlen.
    unfold numeric, textual. rewrite !(dict_get_empty _ d Hlen). reflexivity.
  - rewrite !GetOptionValue_textual by (cbn; tauto).
    rewrite !GetOptionValue_numeric by (cbn; tauto).
    cbn [bind].
    destruct (numeric py_int d "-movetime" 0); cbn [bind]; [|reflexivity].
    destruct (numeric py_int d "-enghash" 32); cbn [bind]; [|reflexivity].
    destruct (numeric py_int d "-engthreads" 1); cbn [bind]; [|reflexivity].
    destruct (numeric py_int d "-movestart" 8); cbn [bind]; reflexivity.
Qed.

Ltac option_read name :=
  let v := fresh "v" in
  let E := fresh "E" in
  let P := fresh "P" in
  destruct (last_value name _) as [v|] eqn:E; cbn [bind];
  [destruct (py_int v) eqn:P; cbn [bind];
   [|intros [= <-]; exists name, v; cbn; tauto]|].

(** X14: reading the options fails only when [int] rejects the last value
    given to [-movetime], [-enghash], [-engthreads] or [-movestart], and then
    with [int]'s exception; when it succeeds, every string option has its
    last value on the command line, or its default when it is not given. *)
Theorem read_options_result (argv : list string) :
  (forall ex,
      read_options py_int argv = Raise ex ->
      exists name v,
        In name ["-movetime"; "-enghash"; "-engthreads"; "-movestart"] /\
        last_value name argv = Some v /\ py_int v = Raise ex) /\
  (forall o,
      read_options py_int argv = Ok o ->
      let given name default :=
        match last_value name argv with Some v => v | None => default end in
      inputFile o = given "-infile" "src.pgn" /\
      outputFile o = given "-outfile" "out_src.pgn" /\
      engineName o = given "-eng" "engine.exe" /\
      bookOption o = given "-book" "none" /\
      evalOption o = given "-eval" "static" /\
      jobOption o = given "-job" "analyze").
Proof.
  rewrite read_options_eq. unfold numeric, textual.
  rewrite !dict_get_EvaluateOptions. split.
  - intros ex.
    option_read "-movetime"; option_read "-enghash";
      option_read "-engthreads"; option_read "-movestart"; discriminate.
  - intros o H. cbv zeta.
    repeat match type of H with
           | bind ?r _ = Ok _ => destruct r; cbn [bind] in H; [|discriminate]
           end.
    injection H as <-. cbn. repeat split.
Qed.

End WithInt.

Lemma read_options_result_witness :
  exists name v,
    In name ["-movetime"; "-enghash"; "-engthreads"; "-movestart"] /\
    last_value name ["-eval"; "search"; "-movetime"; "fast"] = Some v /\
    FurtherExample.int_of_digits v = Raise ValueError.
Proof.
  apply (proj1 (read_options_result FurtherExample.int_of_digits
                  ["-eval"; "search"; "-movetime"; "fast"]) ValueError).
  reflexivity.
Defined.

End CommandLineProperties.

Section StartupProperties.

Import Py Startup.

(** X15: when [main] goes on to an analysis, the input file and the engine
    exist and the output is another file, the engine gets at least one
    thread, and the method fits the options: [AnnotatePgn] for a [.pgn] file
    with [-job analyze] and a book or an evaluation mode; [AnnotateEpd] for
    an [.epd] file with a positive move time and an evaluation mode;
    [TestEngineWithEpd] for an [.epd] file with a positive move time and
    [-job test]. *)
Theorem main_dispatch (isfile : string -> bool) (o o' : options) (j : job) :
  main isfile o = Continue (o', j) ->
  isfile (inputFile o') = true /\
  inputFile o' <> outputFile o' /\
  isfile (engineName o') = true /\
  1 <= engThreadsOption o' /\
  match j with
  | RunAnnotatePgn =>
      endswith ".pgn" (inputFile o') = true /\
      jobOption o' = "analyze" /\
      ~ (bookOption o' = "none" /\ evalOption o' = "none")
  | RunAnnotateEpd =>
      endswith ".epd" (inputFile o') = true /\
      0 < moveTimeOption o' /\
      evalOption o' <> "none" /\ jobOption o' <> "test"
  | RunTestEngineWithEpd =>
      endswith ".epd" (inputFile o') = true /\
      0 < moveTimeOption o' /\
      jobOption o' = "test"
  end.
Proof.
  unfold main, CheckFiles.
  destruct (isfile (inputFile o)) eqn:Hin; cbn [negb]; [|discriminate].
  destruct (String.eqb (inputFile o) (outputFile o)) eqn:Hout; [discriminate|].
  destruct (isfile (engineName o)) eqn:Heng; cbn [negb]; [|discriminate].
  apply String.eqb_neq in Hout.
  set (book := if String.eqb (bookOption o) "cerebellum" && negb (isfile cereBookFile)
               then "none" else bookOption o).
  set (threads := if engThreadsOption o <=? 0 then 1 else engThreadsOption o).
  assert (Hthreads : 1 <= threads)
    by (unfold threads; destruct (Z.leb_spec (engThreadsOption o) 0); lia).
  destruct (endswith ".epd" (inputFile o)) eqn:Hepd; cbn [negb andb].
  - change (EPD_FILE =? PGN_FILE) with false.
    change (EPD_FILE =? EPD_FILE) with true.
    rewrite !andb_false_r. cbn [andb].
    destruct (Z.leb_spec (moveTimeOption o) 0) as [|Hmt]; [discriminate|].
    destruct (String.eqb (evalOption o) "none") eqn:Heval; cbn [andb].
    + destruct (String.eqb (jobOption o) "test") eqn:Hjob; cbn [negb];
        [|discriminate].
      intros [= <- <-]. cbn. apply String.eqb_eq in Hjob. tauto.
    + apply String.eqb_neq in Heval.
      destruct (String.eqb (jobOption o) "test") eqn:Hjob;
        intros [= <- <-]; cbn;
        [apply String.eqb_eq in Hjob|apply String.eqb_neq in Hjob]; tauto.
  - destruct (endswith ".pgn" (inputFile o)) eqn:Hpgn; cbn [negb];
      [|discriminate].
    change (PGN_FILE =? PGN_FILE) with true.
    change (PGN_FILE =? EPD_FILE) with false.
    rewrite !andb_true_r. cbn [andb].
    destruct (String.eqb book "none" && String.eqb (evalOption o) "none") eqn:Hnone;
      [discriminate|].
    destruct (String.eqb (jobOption o) "analyze") eqn:Hjob; cbn [negb];
      [|discriminate].
    intros [= <- <-]. cbn. apply String.eqb_eq in Hjob.
    repeat split; try assumption.
    intros [Hb He]. fold book in Hb. rewrite Hb, He in Hnone. discriminate.
Qed.

Lemma main_dispatch_witness :
  Example.all_files (inputFile Example.none_options) = true /\
  inputFile Example.none_options <> outputFile Example.none_options /\
  Example.all_files (engineName Example.none_options) = true /\
  1 <= engThreadsOption Example.none_options /\
  endswith ".pgn" (inputFile Example.none_options) = true /\
  jobOption Example.none_options = "analyze" /\
  ~ (bookOption Example.none_options = "none" /\
     evalOption Example.none_options = "none").
Proof.
  exact (main_dispatch Example.all_files Example.none_options
                       Example.none_options RunAnnotatePgn eq_refl).
Defined.

(** X16: with [-book cerebellum] and no book file, the run never uses the
    book: either it goes on with the book option set to [none], or it stops
    at startup. *)
Theorem main_book_missing (isfile : string -> bool) (o o' : options) (j : job) :
  isfile cereBookFile = false ->
  main isfile o = Continue (o', j) ->
  bookOption o' <> "cerebellum".
Proof.
  intros Hbook. unfold main.
  destruct (CheckFiles _ _ _ _); [discriminate|].
  rewrite Hbook. cbn [negb]. rewrite andb_true_r.
  repeat match goal with
         | |- context [if ?b then Exit _ else _] => destruct b; [discriminate|]
         end.
  intros [= <- <-]. cbn [bookOption].
  destruct (String.eqb (bookOption o) "cerebellum") eqn:E; [discriminate|].
  now apply String.eqb_neq.
Qed.

End StartupProperties.

Section StartupExamples.

Import Py Startup FurtherExample.

Lemma main_book_missing_witness :
  bookOption (Options "games.pgn" "out.pgn" "Brainfish.exe" "none" "static"
                      0 32 1 8 "analyze") <> "cerebellum".
Proof.
  exact (main_book_missing no_book_file book_options _ RunAnnotatePgn
                           eq_refl eq_refl).
Defined.

End StartupExamples.

(** ** What the methods do to the output file and to the engine *)

Section EffectLemmas.

Import Py Engine Analyze Session Pgn Effects.

Lemma extends_refl (P : request -> bool) (st : state) : extends P st st.
Proof.
  split; [reflexivity|]. split.
  - exists "". now rewrite append_empty_r.
  - exists []. now rewrite app_nil_r.
Qed.

Lemma extends_trans (P : request -> bool) (st1 st2 st3 : state) :
  extends P st1 st2 -> extends P st2 st3 -> extends P st1 st3.
Proof.
  intros (B1 & (t1 & O1) & (l1 & R1 & F1)) (B2 & (t2 & O2) & (l2 & R2 & F2)).
  split; [congruence|]. split.
  - exists (t1 ++ t2). now rewrite O2, O1, append_assoc.
  - exists (l1 ++ l2)%list. split.
    + now rewrite R2, R1, app_assoc.
    + now rewrite forallb_app, F1, F2.
Qed.

Section Rules.

Context {A C : Type}.
Variable B : string -> Prop.
Variable P : request -> bool.

Lemma effect_ret (a : A) : effect B P (ret a).
Proof. intros st _. apply extends_refl. Qed.

Lemma effect_raise (x : exn) : effect B P (@raise A x).
Proof. intros st _. apply extends_refl. Qed.

Lemma effect_lift (r : result A) : effect B P (lift r).
Proof. intros st _. apply extends_refl. Qed.

Lemma effect_bind (m : M A) (k : A -> M C) :
  effect B P m -> (forall a, effect B P (k a)) -> effect B P (mbind m k).
Proof.
  intros Hm Hk st Hst. unfold mbind.
  pose proof (Hm st Hst) as H1.
  destruct (m st) as [[a|x] st1]; cbn [snd] in *; [|exact H1].
  apply (extends_trans P st st1); [exact H1|].
  apply Hk. destruct H1 as (-> & _). exact Hst.
Qed.

End Rules.

Lemma effect_get_bind {C : Type} (B : string -> Prop) (P : request -> bool)
      (k : state -> M C) :
  (forall st, B (bookOpt st) -> extends P st (snd (k st st))) ->
  effect B P (mbind get k).
Proof. intros H st Hst. unfold mbind, get. now apply H. Qed.

Lemma effect_fwrite (B : string -> Prop) (P : request -> bool) (text : string) :
  effect B P (fwrite text).
Proof.
  intros st _. split; [reflexivity|]. split.
  - now exists text.
  - exists []. cbn. now rewrite app_nil_r.
Qed.

Lemma effect_set_writeCnt (B : string -> Prop) (P : request -> bool) (n : Z) :
  effect B P (set_writeCnt n).
Proof.
  intros st _. split; [reflexivity|]. split.
  - exists "". cbn. now rewrite append_empty_r.
  - exists []. cbn. now rewrite app_nil_r.
Qed.

Lemma effect_send (B : string -> Prop) (P : request -> bool) (r : request) :
  P r = true -> effect B P (send r).
Proof.
  intros Hr st _. split; [reflexivity|]. split.
  - exists "". cbn. now rewrite append_empty_r.
  - exists [r]. cbn. now rewrite Hr.
Qed.

Lemma effect_bump (B : string -> Prop) (P : request -> bool) : effect B P bump.
Proof.
  unfold bump. apply effect_get_bind. intros st Hst.
  now apply (effect_set_writeCnt B P).
Qed.

Lemma effect_wrap (B : string -> Prop) (P : request -> bool) (limit : Z) :
  effect B P (wrap limit).
Proof.
  unfold wrap. apply effect_get_bind. intros st Hst.
  destruct (writeCnt st >=? limit).
  - assert (H : effect B P (set_writeCnt 0 ;; fwrite LF)).
    { apply effect_bind; [apply effect_set_writeCnt | intros; apply effect_fwrite]. }
    now apply H.
  - now apply (effect_ret B P).
Qed.

Ltac effect_step :=
  first
    [ apply effect_ret | apply effect_raise | apply effect_lift
    | apply effect_fwrite | apply effect_set_writeCnt | apply effect_bump
    | apply effect_wrap
    | apply effect_bind; [|intros] ].

Ltac effects := repeat effect_step.

Section WriterEffects.

Variable cfg : config.
Variable B : string -> Prop.
Variable P : request -> bool.

Lemma effect_WriteSanMove side moveNumber sanMove :
  effect B P (WriteSanMove side moveNumber sanMove).
Proof. unfold WriteSanMove. destruct side; effects. Qed.

Lemma effect_WritePosScore side moveNumber sanMove posScore :
  effect B P (WritePosScore side moveNumber sanMove posScore).
Proof. unfold WritePosScore. destruct side; effects. Qed.

Lemma effect_WritePosScoreEngMove side n san p em es c m :
  effect B P (WritePosScoreEngMove cfg side n san p em es c m).
Proof.
  unfold WritePosScoreEngMove, engShortName.
  destruct side; destruct (negb (String.eqb san em)); effects.
Qed.

Lemma effect_WriteBookMove side n san bm :
  effect B P (WriteBookMove side n san bm).
Proof. unfold WriteBookMove. destruct side; effects. Qed.

Lemma effect_WritePosScoreBookMove side n san bm p :
  effect B P (WritePosScoreBookMove side n san bm p).
Proof. unfold WritePosScoreBookMove. destruct side; effects. Qed.

Lemma effect_WritePosScoreBookMoveEngMove side n san bm p em es :
  effect B P (WritePosScoreBookMoveEngMove cfg side n san bm p em es).
Proof.
  unfold WritePosScoreBookMoveEngMove, engShortName.
  destruct side; destruct (negb (String.eqb san em)); effects.
Qed.

Lemma effect_WriteBookMoveEngMove side n san bm em es :
  effect B P (WriteBookMoveEngMove cfg side n san bm em es).
Proof.
  unfold WriteBookMoveEngMove, engShortName.
  destruct side; destruct (negb (String.eqb san em)); effects.
Qed.

Lemma effect_WriteNotation side n san bm p over eng c m :
  effect B P (WriteNotation cfg side n san bm p over eng c m).
Proof.
  unfold WriteNotation.
  destruct over; [apply effect_WriteSanMove|].
  destruct p as [p|], bm as [bm|], eng as [[em es]|].
  - apply effect_WritePosScoreBookMoveEngMove.
  - apply effect_WritePosScoreBookMove.
  - apply effect_WritePosScoreEngMove.
  - apply effect_WritePosScore.
  - apply effect_WriteBookMoveEngMove.
  - apply effect_WriteBookMove.
  - apply effect_raise.
  - apply effect_WriteSanMove.
Qed.

End WriterEffects.

Section SessionEffects.

Variable e : engine.
Variable cfg : config.
Variable B : string -> Prop.
Variable P : request -> bool.

Lemma effect_GetCerebellumBookMove pos :
  P (BookProbe pos) = true -> effect B P (GetCerebellumBookMove e pos).
Proof.
  intros HP. unfold GetCerebellumBookMove.
  apply effect_bind; [now apply effect_send|intros].
  destruct (negb _); effects.
Qed.

Lemma effect_GetStaticEvalAfterMove pos :
  P (StaticEval pos) = true -> effect B P (GetStaticEvalAfterMove e pos).
Proof.
  intros HP. unfold GetStaticEvalAfterMove.
  apply effect_bind; [now apply effect_send|intros]. effects.
Qed.

Lemma effect_GetSearchScoreBeforeMove pos side :
  P (SearchBeforeMove pos) = true -> effect B P (GetSearchScoreBeforeMove e pos side).
Proof.
  intros HP. unfold GetSearchScoreBeforeMove.
  apply effect_bind; [now apply effect_send|intros]. effects.
Qed.

Lemma effect_GetSearchScoreAfterMove pos side :
  P (SearchAfterMove pos) = true -> effect B P (GetSearchScoreAfterMove e cfg pos side).
Proof.
  intros HP. unfold GetSearchScoreAfterMove.
  apply effect_bind; [now apply effect_send|intros].
  apply effect_bind; [apply effect_lift|intros].
  apply effect_bind.
  - destruct (_ && _); effects.
  - intros [c m]. effects.
Qed.

Lemma effect_GetEpdEngineSearchScore pos :
  P (EpdSearch pos) = true -> effect B P (GetEpdEngineSearchScore e cfg pos).
Proof.
  intros HP. unfold GetEpdEngineSearchScore.
  apply effect_bind; [now apply effect_send|intros]. effects.
Qed.

End SessionEffects.

End EffectLemmas.

(** ** What annotating a PGN file sends and writes *)

Section PgnEffects.

Import Py Engine Analyze Session Pgn Effects.

Variable e : engine.
Variable cfg : config.

Lemma effect_evaluate_move (B : string -> Prop) (hm : halfmove)
      (cereBookMove : option string) :
  effect B is_evaluation (evaluate_move e cfg hm cereBookMove).
Proof.
  unfold evaluate_move.
  apply effect_bind.
  - destruct (String.eqb (evalOpt cfg) "static").
    + apply effect_bind; [now apply effect_GetStaticEvalAfterMove|intros].
      apply effect_ret.
    + destruct (String.eqb (evalOpt cfg) "search"); [|apply effect_ret].
      apply effect_bind; [now apply effect_GetSearchScoreAfterMove|].
      intros [[s c] m]. apply effect_ret.
  - intros [[posScore c] m].
    apply effect_bind; [apply effect_lift|intros magnitude].
    apply effect_bind.
    + destruct (_ && _); [|apply effect_ret].
      apply effect_bind; [now apply effect_GetSearchScoreBeforeMove|intros].
      apply effect_ret.
    + intros engBest. apply effect_WriteNotation.
Qed.

(** With the book closed for the game the flag stays set, and nothing but
    evaluations is sent. *)
Lemma annotate_move_book_closed (hm : halfmove) (st : state) :
  (fst (annotate_move e cfg true hm st) = Ok true \/
   exists x, fst (annotate_move e cfg true hm st) = Raise x) /\
  extends is_evaluation st (snd (annotate_move e cfg true hm st)).
Proof.
  destruct (annotate_move e cfg true hm st) as [r st'] eqn:E. cbn [fst snd].
  unfold annotate_move, mbind at 1, get in E.
  destruct ((fmvn hm <? moveStartOpt cfg)
            && negb (String.eqb (bookOpt st) "cerebellum")).
  - pose proof (effect_WriteNotation cfg any_book is_evaluation (side hm) (fmvn hm)
                  (sanMove hm) None None false None 0 0 st I) as H.
    unfold mbind in E.
    destruct (WriteNotation cfg (side hm) (fmvn hm) (sanMove hm) None None false
                            None 0 0 st) as [[u|x] st1]; cbn [fst snd] in *;
      injection E as <- <-.
    + split; [now left|exact H].
    + split; [right; now exists x|exact H].
  - cbn [negb] in E. rewrite andb_false_r in E. unfold mbind at 1, ret at 1 in E.
    pose proof (effect_evaluate_move any_book hm None st I) as H.
    unfold mbind in E.
    destruct (evaluate_move e cfg hm None st) as [[u|x] st1]; cbn [fst snd] in *;
      injection E as <- <-.
    + split; [now left|exact H].
    + split; [right; now exists x|exact H].
Qed.

Lemma annotate_moves_book_closed (moves : list halfmove) :
  forall st, extends is_evaluation st (snd (annotate_moves e cfg true moves st)).
Proof.
  induction moves as [|hm rest IH]; intros st; cbn [annotate_moves].
  - apply extends_refl.
  - destruct (annotate_move_book_closed hm st) as [Hv Hx]. unfold mbind.
    destruct (annotate_move e cfg true hm st) as [[b|x] st1]; cbn [fst snd] in *.
    + destruct Hv as [Hv|[x Hv]]; [|discriminate].
      injection Hv as ->.
      apply (extends_trans _ st st1); [exact Hx|apply IH].
    + exact Hx.
Qed.

(** X17: A book miss beyond move [BOOK_MOVE_LIMIT] closes the book for the
    rest of the game: from a half-move with [fmvn > BOOK_MOVE_LIMIT] for which
    the book, in use and still consulted, has no move, the loop over the
    moves sends the probe of that position and after it nothing but
    evaluations, however many moves follow and whether or not the loop
    completes. *)
Theorem annotate_moves_book_miss_closes_book (hm : halfmove) (rest : list halfmove)
        (st : state) :
  bookOpt st = "cerebellum" ->
  fmvn hm > BOOK_MOVE_LIMIT ->
  book_answers e hm = false ->
  exists sent,
    requests (snd (annotate_moves e cfg false (hm :: rest) st)) =
    (requests st ++ BookProbe (fenBeforeMove hm) :: sent)%list /\
    forallb is_evaluation sent = true.
Proof.
  intros Hbook Hlate Hsilent. cbn [annotate_moves]. unfold mbind at 1.
  rewrite (annotate_move_book_silent e cfg hm st Hbook Hsilent).
  replace (fmvn hm >? BOOK_MOVE_LIMIT) with true
    by (symmetry; apply Z.gtb_lt; lia).
  set (st0 := snd (send (BookProbe (fenBeforeMove hm)) st)).
  assert (Hsent : requests st0 = (requests st ++ [BookProbe (fenBeforeMove hm)])%list)
    by reflexivity.
  pose proof (effect_evaluate_move any_book hm None st0 I) as H.
  unfold mbind at 1.
  destruct (evaluate_move e cfg hm None st0) as [[u|x] st1]; cbn [fst snd] in *.
  - unfold ret at 1.
    pose proof (extends_trans _ _ _ _ H (annotate_moves_book_closed rest st1)) as H'.
    destruct H' as (_ & _ & (l & Hr & Hf)).
    exists l. split; [|exact Hf].
    rewrite Hr, Hsent, <- app_assoc. reflexivity.
  - destruct H as (_ & _ & (l & Hr & Hf)).
    exists l. split; [|exact Hf].
    rewrite Hr, Hsent, <- app_assoc. reflexivity.
Qed.

Lemma effect_annotate_move_without_book (isCereEnd : bool) (hm : halfmove) :
  effect not_cerebellum is_evaluation (annotate_move e cfg isCereEnd hm).
Proof.
  unfold annotate_move. apply effect_get_bind. intros st Hst.
  assert (Hb : String.eqb (bookOpt st) "cerebellum" = false)
    by (now apply String.eqb_neq).
  rewrite Hb. cbn [negb andb]. rewrite andb_true_r.
  destruct (fmvn hm <? moveStartOpt cfg).
  - assert (H : effect not_cerebellum is_evaluation
                  (WriteNotation cfg (side hm) (fmvn hm) (sanMove hm) None None
                                 false None 0 0 ;; ret isCereEnd)).
    { apply effect_bind; [apply effect_WriteNotation|intros; apply effect_ret]. }
    now apply H.
  - unfold mbind at 1, ret at 1.
    assert (H : effect not_cerebellum is_evaluation
                  (evaluate_move e cfg hm None ;; ret isCereEnd)).
    { apply effect_bind; [apply effect_evaluate_move|intros; apply effect_ret]. }
    now apply H.
Qed.

Section Loops.

Variable B : string -> Prop.
Variable P : request -> bool.
Hypothesis effect_move : forall b hm, effect B P (annotate_move e cfg b hm).

Lemma effect_annotate_moves (moves : list halfmove) :
  forall b, effect B P (annotate_moves e cfg b moves).
Proof.
  induction moves as [|hm rest IH]; intros b; cbn [annotate_moves].
  - apply effect_ret.
  - apply effect_bind; [apply effect_move|intros; apply IH].
Qed.

Lemma effect_write_headers (hs : list (string * string)) :
  effect B P (write_headers hs).
Proof.
  induction hs as [|[k v] rest IH]; cbn [write_headers].
  - apply effect_ret.
  - apply effect_bind; [apply effect_fwrite|intros; apply IH].
Qed.

Lemma effect_annotate_game (g : game) : effect B P (annotate_game e cfg g).
Proof.
  unfold annotate_game.
  apply effect_bind; [apply effect_set_writeCnt|intros].
  apply effect_bind; [apply effect_write_headers|intros].
  apply effect_bind; [apply effect_fwrite|intros].
  apply effect_bind.
  { destruct (String.eqb (evalOpt cfg) "static"); [apply effect_fwrite|].
    destruct (String.eqb (evalOpt cfg) "search"); [apply effect_fwrite|apply effect_ret]. }
  intros. apply effect_bind; [apply effect_lift|intros].
  apply effect_bind; [apply effect_annotate_moves|intros].
  apply effect_fwrite.
Qed.

Lemma effect_annotate_games (games : list game) :
  effect B P (annotate_games e cfg games).
Proof.
  induction games as [|g rest IH]; cbn [annotate_games].
  - apply effect_ret.
  - apply effect_bind; [apply effect_annotate_game|intros; apply IH].
Qed.

End Loops.

(** X18: The book is probed only for Brainfish with [-book cerebellum]: when
    the book option is not 'cerebellum' or the engine's name does not
    contain 'Brainfish', [AnnotatePgn] sends the engine nothing but
    evaluations, whatever the games and whether or not the run completes. *)
Theorem AnnotatePgn_probes_only_brainfish (games : list game) (st : state) :
  bookOpt st <> "cerebellum" \/ contains "Brainfish" (engIdName cfg) = false ->
  exists sent,
    requests (snd (AnnotatePgn e cfg games st)) = (requests st ++ sent)%list /\
    forallb is_evaluation sent = true.
Proof.
  intros H. unfold AnnotatePgn, mbind at 1, get.
  pose proof (effect_annotate_games not_cerebellum is_evaluation
                effect_annotate_move_without_book games) as Hg.
  destruct (String.eqb (bookOpt st) "cerebellum") eqn:Hb.
  - destruct H as [H|H]; [now apply String.eqb_neq in H; congruence|].
    rewrite H. cbn [negb andb]. unfold mbind at 1, set_bookOpt, modify.
    match goal with
    | |- context [annotate_games e cfg games ?s] =>
        destruct (Hg s) as (_ & _ & Hr); [cbn; unfold not_cerebellum; discriminate|]
    end.
    exact Hr.
  - cbn [andb]. unfold mbind at 1, ret at 1.
    destruct (Hg st) as (_ & _ & Hr); [now apply String.eqb_neq|].
    exact Hr.
Qed.

End PgnEffects.

Section PgnEffectExamples.

Import Py Engine Analyze Session Pgn Effects Example.

Lemma annotate_moves_book_miss_closes_book_witness :
  exists sent,
    requests (snd (annotate_moves engine_out_of_book static_config false
                                  [late_move; late_reply] with_book)) =
    (requests with_book ++ BookProbe (fenBeforeMove late_move) :: sent)%list /\
    forallb is_evaluation sent = true.
Proof.
  refine (annotate_moves_book_miss_closes_book engine_out_of_book static_config
            late_move [late_reply] with_book _ _ _).
  - reflexivity.
  - reflexivity.
  - reflexivity.
Defined.

Lemma AnnotatePgn_probes_only_brainfish_witness :
  exists sent,
    requests (snd (AnnotatePgn engine_e5 test_config [short_game] with_book)) =
    (requests with_book ++ sent)%list /\
    forallb is_evaluation sent = true.
Proof.
  refine (AnnotatePgn_probes_only_brainfish engine_e5 test_config [short_game]
            with_book _).
  right. reflexivity.
Defined.

End PgnEffectExamples.

(** ** The searches: what stops them *)

Section SearchProperties.

Import Py Engine Analyze Session Pgn Effects.

Variable e : engine.
Variable cfg : config.

Lemma MateDistanceToValue_sentinel (n : Z) :
  MateDistanceToValue n = TEST_SEARCH_SCORE <-> n = -66000.
Proof.
  unfold MateDistanceToValue, MAX_SCORE, TEST_SEARCH_SCORE.
  rewrite Z.gtb_ltb.
  destruct (Z.ltb_spec n 0); [lia|].
  destruct (Z.ltb_spec 0 n); lia.
Qed.

Lemma parsed_score_sentinel (r : search_reply) :
  (parsed_score r =? TEST_SEARCH_SCORE) = true <-> no_score r.
Proof.
  unfold parsed_score, no_score. rewrite Z.eqb_eq.
  destruct (last_score r) as [[n|n]|].
  - split.
    + intros ->. right. now left.
    + intros [H|[H|H]]; try discriminate. now injection H as ->.
  - rewrite MateDistanceToValue_sentinel. split.
    + intros ->. right. now right.
    + intros [H|[H|H]]; try discriminate. now injection H as ->.
  - split; [now left|reflexivity].
Qed.

Lemma GetComplexityNumber_raises (t : list Complexity.sample) (x : exn) :
  Complexity.GetComplexityNumber t = Raise x ->
  x = NameError /\ Complexity.starts_shallow t = false.
Proof.
  intros H. destruct (Complexity.starts_shallow t) eqn:Hs.
  - rewrite (GetComplexityNumber_starts_shallow t Hs) in H. discriminate.
  - destruct t as [|n rest]; [discriminate|]. cbn [Complexity.starts_shallow] in Hs.
    apply Z.ltb_ge in Hs. unfold Complexity.GetComplexityNumber in H.
    rewrite scan_unbound in H by assumption. cbn in H. injection H as <-.
    now split.
Qed.

(** X20: The searches of a half-move stop at the assertion exactly when
    [scoreCp] is left at [TEST_SEARCH_SCORE]: the engine printed no score
    before [bestmove], or its last score is [score cp 100000] or
    [score mate -66000], which [MateDistanceToValue] takes to the same
    value. *)
Theorem search_assertion_fails_iff_no_score (pos : string) (side : bool)
        (st : state) :
  (fst (GetSearchScoreBeforeMove e pos side st) = Raise AssertionError <->
   no_score (go_search e pos)) /\
  (fst (GetSearchScoreAfterMove e cfg pos side st) = Raise AssertionError <->
   no_score (go_search e pos)).
Proof.
  rewrite <- parsed_score_sentinel.
  unfold GetSearchScoreBeforeMove, GetSearchScoreAfterMove.
  unfold mbind, send, modify, lift, assert, ret.
  destruct (parsed_score (go_search e pos) =? TEST_SEARCH_SCORE); cbn [negb fst].
  - split; split; reflexivity.
  - split; [split; discriminate|].
    split; [|discriminate].
    destruct (String.eqb (jobOpt cfg) "analyze" && (moveTimeOpt cfg >=? 2000)).
    + destruct (Complexity.GetComplexityNumber (pv_samples (go_search e pos)))
        as [[c m]|x] eqn:E; cbn [fst]; [discriminate|].
      apply GetComplexityNumber_raises in E. destruct E as [-> _]. discriminate.
    + discriminate.
Qed.


End SearchProperties.

Section SearchExamples.

Import Py Engine Analyze Session Pgn Effects Example.


End SearchExamples.


(** ** What the test suite run writes *)

Section EpdOutput.

Import Py Engine Analyze Session Epd Effects.

Variable e : engine.
Variable cfg : config.
Variable parses : string -> bool.


End EpdOutput.

(** ** Annotating an EPD file *)

Section EpdAnnotateProperties.

Import Py Engine Analyze Session EpdAnnotate.

Variable e : engine.
Variable cfg : config.
Variable parses : string -> bool.
Variable GetEpdEngineStaticScore : string -> M Z.



End EpdAnnotateProperties.

Section EpdAnnotateExamples.

Import Py Engine Analyze Session EpdAnnotate Example.


End EpdAnnotateExamples.

(** ** Below the consultation ply *)

Section BelowMoveStart.

Import Py Engine Analyze Session Pgn Effects.

Variable e : engine.
Variable cfg : config.

Lemma sends_first_send {A : Type} (r : request) (k : unit -> M A) :
  (forall u, effect any_book is_evaluation (k u)) ->
  sends_first r (mbind (send r) k).
Proof.
  intros H st. unfold mbind, send, modify.
  match goal with
  | |- context [k tt ?s] => destruct (H tt s I) as (_ & _ & (l & Hr & _))
  end.
  exists l. rewrite Hr. cbn [requests]. now rewrite <- app_assoc.
Qed.

Lemma sends_first_bind {A C : Type} (r : request) (m : M A) (k : A -> M C) :
  sends_first r m ->
  (forall a, effect any_book is_evaluation (k a)) ->
  sends_first r (mbind m k).
Proof.
  intros Hm Hk st. unfold mbind. destruct (Hm st) as (l & Hl).
  destruct (m st) as [[a|x] st1]; cbn [snd] in *.
  - destruct (Hk a st1 I) as (_ & _ & (l' & Hr & _)).
    exists (l ++ l')%list. now rewrite Hr, Hl, <- app_assoc.
  - now exists l.
Qed.

(** What follows step (3) in [evaluate_move] sends evaluations only. *)
Ltac rest_of_evaluation :=
  intros [[posScore c] m];
  apply effect_bind; [apply effect_lift|intros magnitude];
  apply effect_bind;
  [ destruct (_ && _); [|apply effect_ret];
    apply effect_bind; [now apply effect_GetSearchScoreBeforeMove|intros];
    apply effect_ret
  | intros engBest; apply effect_WriteNotation ].

(** The first request of the evaluation of a half-move is for the position
    after the move: its static evaluation, or its search. *)
Lemma evaluate_move_static (hm : halfmove) (cereBookMove : option string) :
  evalOpt cfg = "static" ->
  sends_first (StaticEval (fenAfterMove hm)) (evaluate_move e cfg hm cereBookMove).
Proof.
  intros H. unfold evaluate_move. rewrite H, String.eqb_refl.
  apply sends_first_bind; [|rest_of_evaluation].
  apply sends_first_bind; [|intros; apply effect_ret].
  unfold GetStaticEvalAfterMove. apply sends_first_send. intros _.
  apply effect_bind; [apply effect_lift|intros; apply effect_ret].
Qed.

Lemma evaluate_move_search (hm : halfmove) (cereBookMove : option string) :
  evalOpt cfg = "search" ->
  sends_first (SearchAfterMove (fenAfterMove hm))
              (evaluate_move e cfg hm cereBookMove).
Proof.
  intros H. unfold evaluate_move. rewrite H.
  change (String.eqb "search" "static") with false. rewrite String.eqb_refl.
  apply sends_first_bind; [|rest_of_evaluation].
  apply sends_first_bind; [|intros [[s c] m]; apply effect_ret].
  unfold GetSearchScoreAfterMove. apply sends_first_send. intros _.
  apply effect_bind; [apply effect_lift|intros].
  apply effect_bind.
  - destruct (_ && _); [apply effect_lift|apply effect_ret].
  - intros [c m]. apply effect_ret.
Qed.

(** A half-move below the ply with the book in use and closed, or silent:
    after the probe, if one is made, it is evaluated. *)
Lemma annotate_move_not_short_circuited (isCereEnd : bool) (hm : halfmove)
      (st : state) (r : request) :
  bookOpt st = "cerebellum" ->
  isCereEnd = true \/ book_answers e hm = false ->
  (forall bm, sends_first r (evaluate_move e cfg hm bm)) ->
  exists sent,
    requests (snd (annotate_move e cfg isCereEnd hm st)) =
    (requests st ++ (if isCereEnd then [] else [BookProbe (fenBeforeMove hm)])
       ++ r :: sent)%list.
Proof.
  intros Hbook Hcase Hfirst. destruct isCereEnd.
  - assert (E : annotate_move e cfg true hm st =
                (evaluate_move e cfg hm None ;; ret true) st).
    { unfold annotate_move, mbind at 1, get. rewrite Hbook.
      cbn [String.eqb Ascii.eqb Bool.eqb negb andb]. rewrite andb_false_r.
      reflexivity. }
    rewrite E.
    assert (H : sends_first r (evaluate_move e cfg hm None ;; ret true))
      by (apply sends_first_bind; [apply Hfirst|intros; apply effect_ret]).
    exact (H st).
  - destruct Hcase as [Hcase|Hsilent]; [discriminate|].
    rewrite (annotate_move_book_silent e cfg hm st Hbook Hsilent).
    match goal with
    | |- context [mbind ?m ?k ?s] =>
        assert (H : sends_first r (mbind m k))
          by (apply sends_first_bind; [apply Hfirst|intros; apply effect_ret]);
        destruct (H s) as (sent & Hs)
    end.
    exists sent. rewrite Hs. cbn [send modify snd requests app].
    now rewrite <- app_assoc.
Qed.

(** With the book in use, consulted and answering, the half-move below
    the ply is written after the probe and nothing else is asked. *)
Lemma annotate_move_book_answers (hm : halfmove) (st : state) :
  fmvn hm < moveStartOpt cfg ->
  bookOpt st = "cerebellum" -> book_answers e hm = true ->
  exists st',
    annotate_move e cfg false hm st = (Ok false, st') /\
    requests st' = (requests st ++ [BookProbe (fenBeforeMove hm)])%list.
Proof.
  intros Hlt Hbook Hans. unfold book_answers in Hans.
  unfold annotate_move, mbind at 1, get. rewrite Hbook.
  cbn [String.eqb Ascii.eqb Bool.eqb negb andb]. rewrite andb_false_r.
  unfold mbind at 1 2. rewrite GetCerebellumBookMove_state, Hans.
  unfold ret at 1. apply Z.ltb_lt in Hlt. rewrite Hlt.
  unfold WriteNotation, WriteBookMove, bump, wrap, set_writeCnt, fwrite.
  unfold mbind, get, modify, ret.
  destruct (side hm); cbn [writeCnt];
    [|destruct (_ >=? 2)]; eexists; split; reflexivity.
Qed.

(** X27: below the consultation ply a half-move is written without an
    evaluation when no book is in use (the bare move, and nothing sent to
    the engine) and when the book, still consulted, has a move (only the
    probe is sent). With the book in use and closed for the game, or
    consulted and silent, the half-move is evaluated like one at or above
    the ply: after the probe (if the book is still consulted) the next
    request is the static evaluation of the position after the move with
    [-eval static], and its search with [-eval search]. *)
Theorem annotate_move_below_ply (isCereEnd : bool) (hm : halfmove)
        (st : state) :
  fmvn hm < moveStartOpt cfg ->
  (bookOpt st <> "cerebellum" ->
   exists st',
     annotate_move e cfg isCereEnd hm st = (Ok isCereEnd, st') /\
     requests st' = requests st /\
     outfile st' =
     outfile st
       ++ (if side hm then format_d (fmvn hm) ++ ". " ++ sanMove hm ++ " "
           else sanMove hm ++ " ")
       ++ (if negb (side hm) && (writeCnt st + 1 >=? 4) then LF else "")) /\
  (bookOpt st = "cerebellum" -> isCereEnd = false -> book_answers e hm = true ->
   exists st',
     annotate_move e cfg isCereEnd hm st = (Ok isCereEnd, st') /\
     requests st' = (requests st ++ [BookProbe (fenBeforeMove hm)])%list) /\
  (bookOpt st = "cerebellum" ->
   isCereEnd = true \/ book_answers e hm = false ->
   (evalOpt cfg = "static" ->
    exists sent,
      requests (snd (annotate_move e cfg isCereEnd hm st)) =
      (requests st ++ (if isCereEnd then [] else [BookProbe (fenBeforeMove hm)])
         ++ StaticEval (fenAfterMove hm) :: sent)%list) /\
   (evalOpt cfg = "search" ->
    exists sent,
      requests (snd (annotate_move e cfg isCereEnd hm st)) =
      (requests st ++ (if isCereEnd then [] else [BookProbe (fenBeforeMove hm)])
         ++ SearchAfterMove (fenAfterMove hm) :: sent)%list)).
Proof.
  intros Hlt. split; [|split].
  - intros Hbook. rewrite annotate_move_without_book by assumption.
    eexists. split; [reflexivity|].
    apply WriteSanMove_output.
  - intros Hbook -> Hans. now apply annotate_move_book_answers.
  - intros Hbook Hcase. split; intros Hev;
      apply annotate_move_not_short_circuited; try assumption; intros bm.
    + now apply evaluate_move_static.
    + now apply evaluate_move_search.
Qed.

End BelowMoveStart.

Section BelowMoveStartExamples.

Import Py Engine Analyze Session Pgn Effects Example.

Lemma annotate_move_below_ply_witness :
  exists sent,
    requests (snd (annotate_move engine_out_of_book static_config false first_move
                                 with_book)) =
    (requests with_book ++ [BookProbe (fenBeforeMove first_move)]
       ++ StaticEval (fenAfterMove first_move) :: sent)%list.
Proof.
  refine (proj1 (proj2 (proj2 (annotate_move_below_ply
                                 engine_out_of_book static_config false first_move
                                 with_book _)) _ _) _).
  - cbn. lia.
  - reflexivity.
  - right. reflexivity.
  - reflexivity.
Defined.

End BelowMoveStartExamples.
